(** * TrueAttendance simulator: rotating secret and attendance set

    A shallow embedding of [true_attendance_simulator.py] and the
    properties of its three operations:

    - [get_or_refresh_secret]  (the specification's resolve_active_code),
    - [verify_attendance]      (the specification's submit),
    - [get_attendance_log]     (the specification's list_present).

    The Flask views run against a Redis server through the module-level
    client [kv].  The embedding threads an explicit [world] through a small
    state-and-exception monad: effects made before an exception is raised
    stay in the world, as they do in Python. *)

From Stdlib Require Import String Ascii QArith List Bool Lia Lqa.
From stdpp Require Import gmap strings sorting.
Import ListNotations.

Local Open Scope string_scope.

(** ** Data model *)

(** The three records the program keeps in Redis.  A key that does not
    exist is [None]; a Redis set that does not exist and an empty set are
    the same thing to [SMEMBERS] and [SADD], so the log is just a set.
    [secret_timestamp] holds what [pipe.set('secret_timestamp', time.time())]
    wrote, read back through [float(...)]: every finite float is a
    rational, so times are values of [Q], and the one float operation of
    the program, the subtraction of line 31, rounds its exact result to
    binary64 ([float_sub] below).
    Redis holds bytes.  A Python [str] is held as its UTF-8 encoding, so
    [encode] is the identity and [.decode('utf-8')] succeeds, as the
    identity, exactly on well-formed UTF-8 ([valid_utf8] below); equality
    of two [str] is equality of their encodings, and the byte-wise
    lexicographic order on UTF-8 text is the code-point order Python's
    [sorted] uses on [str]. *)
Record store := Store {
  secret_code : option string;
  secret_timestamp : option Q;
  attendance_log : gset string
}.

(** A source of values read one after the other: clock readings, random
    draws, and the success of successive round trips to the server. *)
Record tape (A : Type) := Tape { feed : nat → A; pos : nat }.
Arguments Tape {A} _ _.
Arguments feed {A} _ _.
Arguments pos {A} _.

Definition peek {A} (t : tape A) : A := feed t (pos t).
Definition advance {A} (t : tape A) : tape A := Tape (feed t) (S (pos t)).

(** [kv] is the module-level client: [None] when [Redis.from_url] raised at
    import time, otherwise a client whose successive commands reach the
    server ([true]) or fail with a connection error ([false]).  [db] is the
    server's data. *)
Record world := World {
  kv : option (tape bool);
  db : store;
  clock : tape Q;
  dice : tape nat
}.

Definition with_kv (l : option (tape bool)) (w : world) : world :=
  {| kv := l; db := db w; clock := clock w; dice := dice w |}.
Definition with_db (d : store) (w : world) : world :=
  {| kv := kv w; db := d; clock := clock w; dice := dice w |}.
Definition with_clock (c : tape Q) (w : world) : world :=
  {| kv := kv w; db := db w; clock := c; dice := dice w |}.
Definition with_dice (r : tape nat) (w : world) : world :=
  {| kv := kv w; db := db w; clock := clock w; dice := r |}.

(** ** Exceptions and the monad *)

(** [AttributeError]: an attribute looked up on [None] ([kv.get] with no
    client, [.decode] on a missing value).  [ConnectionError]: a command that
    did not reach the server.  [UnicodeDecodeError]: [.decode('utf-8')] on
    bytes that are not UTF-8. *)
Inductive exn := AttributeError | ConnectionError | UnicodeDecodeError.

Inductive result (A : Type) :=
| Val (a : A)
| Raise (e : exn).
Arguments Val {A} _.
Arguments Raise {A} _.

Definition M (A : Type) : Type := world → result A * world.

Definition ret {A} (a : A) : M A := fun w => (Val a, w).
Definition raise {A} (e : exn) : M A := fun w => (Raise e, w).
Definition bind {A B} (m : M A) (k : A → M B) : M B :=
  fun w => match m w with
           | (Val a, w') => k a w'
           | (Raise e, w') => (Raise e, w')
           end.

Notation "'let*' x := m 'in' k" := (bind m (fun x => k))
  (at level 10, x name, m at level 100, k at level 200, only parsing).

(** ** The environment: clock, random source, Redis client *)

(** [time.time()] *)
Definition time_time : M Q :=
  fun w => (Val (peek (clock w)), with_clock (advance (clock w)) w).

(** One draw of [random.choices]: [population[floor(random() * n)]], the
    index being the next die reduced into range. *)
Definition random_choice (population : list ascii) : M ascii :=
  fun w => (Val (nth (peek (dice w) mod length population) population Ascii.zero),
            with_dice (advance (dice w)) w).

(** [''.join(random.choices(population, k=k))] *)
Fixpoint random_choices (population : list ascii) (k : nat) : M string :=
  match k with
  | O => ret EmptyString
  | S k' => let* c := random_choice population in
            let* s := random_choices population k' in
            ret (String c s)
  end.

(** [not kv] *)
Definition kv_missing : M bool := fun w => (Val (bool_decide (kv w = None)), w).

(** One command (or one transaction) sent through the client: with no
    client the attribute lookup on [None] raises; otherwise the round trip
    is consumed and the server runs [f] only if it was reached. *)
Definition command {A} (f : store → A * store) : M A :=
  fun w => match kv w with
           | None => (Raise AttributeError, w)
           | Some l =>
               let w' := with_kv (Some (advance l)) w in
               if peek l
               then let '(a, d) := f (db w) in (Val a, with_db d w')
               else (Raise ConnectionError, w')
           end.

(** [kv.get('secret_timestamp')], [kv.get('secret_code')] *)
Definition kv_get_secret_timestamp : M (option Q) :=
  command (fun d => (secret_timestamp d, d)).
Definition kv_get_secret_code : M (option string) :=
  command (fun d => (secret_code d, d)).

(** [kv.sadd('attendance_log', member)] *)
Definition sadd (member : string) (d : store) : store :=
  {| secret_code := secret_code d;
     secret_timestamp := secret_timestamp d;
     attendance_log := {[ member ]} ∪ attendance_log d |}.
Definition kv_sadd_attendance_log (member : string) : M unit :=
  command (fun d => (tt, sadd member d)).

(** [kv.smembers('attendance_log')] *)
Definition kv_smembers_attendance_log : M (gset string) :=
  command (fun d => (attendance_log d, d)).

(** The commands queued on [kv.pipeline()].  redis-py pipelines are
    transactions (MULTI/EXEC) by default: [execute] sends the queue in one
    round trip and the server applies it as a whole. *)
Inductive queued :=
| SetSecretCode (v : string)
| SetSecretTimestamp (v : Q)
| DeleteAttendanceLog.

Definition apply_queued (d : store) (c : queued) : store :=
  match c with
  | SetSecretCode v =>
      {| secret_code := Some v;
         secret_timestamp := secret_timestamp d;
         attendance_log := attendance_log d |}
  | SetSecretTimestamp v =>
      {| secret_code := secret_code d;
         secret_timestamp := Some v;
         attendance_log := attendance_log d |}
  | DeleteAttendanceLog =>
      {| secret_code := secret_code d;
         secret_timestamp := secret_timestamp d;
         attendance_log := ∅ |}
  end.

Definition pipe_execute (pipe : list queued) : M unit :=
  command (fun d => (tt, fold_left apply_queued pipe d)).

(** ** Bytes that are text

    Well-formed UTF-8, as the strict decoder of [bytes.decode('utf-8')]
    accepts it: no overlong forms, no surrogates, nothing above U+10FFFF,
    no truncated sequence. *)
Definition between (lo hi b : nat) : bool := (lo <=? b)%nat && (b <=? hi)%nat.
Definition continuation (b : nat) : bool := between 128 191 b.
Definition second_of_three (b0 b1 : nat) : bool :=
  if (b0 =? 224)%nat then between 160 191 b1
  else if (b0 =? 237)%nat then between 128 159 b1
  else continuation b1.
Definition second_of_four (b0 b1 : nat) : bool :=
  if (b0 =? 240)%nat then between 144 191 b1
  else if (b0 =? 244)%nat then between 128 143 b1
  else continuation b1.

Fixpoint well_formed (bs : list nat) : bool :=
  match bs with
  | [] => true
  | b0 :: t0 =>
      if (b0 <=? 127)%nat then well_formed t0
      else match t0 with
      | [] => false
      | b1 :: t1 =>
          if between 194 223 b0 then continuation b1 && well_formed t1
          else match t1 with
          | [] => false
          | b2 :: t2 =>
              if between 224 239 b0
              then second_of_three b0 b1 && continuation b2 && well_formed t2
              else match t2 with
              | [] => false
              | b3 :: t3 =>
                  between 240 244 b0 && second_of_four b0 b1
                  && continuation b2 && continuation b3 && well_formed t3
              end
          end
      end
  end.

Definition valid_utf8 (b : string) : bool :=
  well_formed (map nat_of_ascii (list_ascii_of_string b)).

(** ** Float subtraction

    [float_sub x y] is [x - y] on binary64 values: the exact difference
    rounded to 53 significant bits, to nearest, ties to even, with the
    gradual underflow of binary64 (no result finer than 2^-1074).  The
    exponent is not bounded above: a difference too large for binary64 is
    left at its 53-bit rounding, which compares with the interval as the
    infinity Python would give. *)

(** [n / d] rounded to the nearest integer, ties to even ([0 <= n], [0 < d]). *)
Definition round_half_even (n d : Z) : Z :=
  let q := (n / d)%Z in
  match (2 * (n mod d) ?= d)%Z with
  | Lt => q
  | Gt => (q + 1)%Z
  | Eq => if Z.even q then q else (q + 1)%Z
  end.

(** The [e] with [2^e <= n / d < 2^(e+1)] ([0 < n], [0 < d]). *)
Definition binade (n d : Z) : Z :=
  let e := (Z.log2 n - Z.log2 d)%Z in
  if (if (0 <=? e)%Z then (d * 2 ^ e <=? n)%Z else (d <=? n * 2 ^ (- e))%Z)
  then e else (e - 1)%Z.

(** [n / d] rounded to a multiple of [2^-s], [s] leaving 53 bits. *)
Definition round_pos (n d : Z) : Q :=
  let s := Z.min (52 - binade n d) 1074 in
  if (0 <=? s)%Z
  then Qmake (round_half_even (n * 2 ^ s) d) (Z.to_pos (2 ^ s))
  else inject_Z (round_half_even n (d * 2 ^ (- s)) * 2 ^ (- s)).

Definition round64 (x : Q) : Q :=
  match Qnum x with
  | Z0 => 0%Q
  | Zpos n => round_pos (Zpos n) (Zpos (Qden x))
  | Zneg n => (- round_pos (Zpos n) (Zpos (Qden x)))%Q
  end.

Definition float_sub (x y : Q) : Q := round64 (x - y).

(** ** The program *)

Definition SECRET_REFRESH_INTERVAL_SECONDS : Q := 60.

(** [string.ascii_uppercase + string.digits] *)
Definition alphabet : list ascii :=
  list_ascii_of_string "ABCDEFGHIJKLMNOPQRSTUVWXYZ0123456789".

Definition KV_NOT_AVAILABLE : string := "KV_NOT_AVAILABLE".

(** [b.decode('utf-8')] on bytes. *)
Definition bytes_decode (b : string) : M string :=
  if valid_utf8 b then ret b else raise UnicodeDecodeError.

(** [.decode('utf-8')] on the reply of [kv.get]: [None] has no [decode]. *)
Definition decode (reply : option string) : M string :=
  match reply with
  | Some b => bytes_decode b
  | None => raise AttributeError
  end.

Definition get_or_refresh_secret : M string :=
  let* no_kv := kv_missing in
  if no_kv then ret KV_NOT_AVAILABLE
  else
    let* reply := kv_get_secret_timestamp in
    let last_update_time := default 0%Q reply in
    let* now := time_time in
    let is_stale :=
      negb (Qle_bool (float_sub now last_update_time)
              SECRET_REFRESH_INTERVAL_SECONDS) in
    if is_stale then
      let* new_secret := random_choices alphabet 8 in
      let pipe := [SetSecretCode new_secret] in
      let* stamp := time_time in
      let pipe := (pipe ++ [SetSecretTimestamp stamp])%list in
      let pipe := (pipe ++ [DeleteAttendanceLog])%list in
      let* _ := pipe_execute pipe in
      ret new_secret
    else
      let* reply := kv_get_secret_code in
      decode reply.

(** The JSON body of a POST to [/api/verify-attendance]: [data.get] gives
    [None] for a field that is not there. *)
Record request := Request {
  student_id : option string;
  code : option string
}.

(** What the view returns: the HTTP status and the two fields of the JSON
    body. *)
Record response := Response {
  http_status : nat;
  status : string;
  message : string
}.

(** Python's [not x] for [x] a string or [None]. *)
Definition falsy (x : option string) : bool :=
  match x with
  | None => true
  | Some s => bool_decide (s = EmptyString)
  end.

Definition verify_attendance (data : request) : M response :=
  let student := student_id data in
  let submitted_code := code data in
  if falsy student || falsy submitted_code then
    ret {| http_status := 400; status := "FAILED";
           message := "Missing student_id or code." |}
  else
    let* reply := kv_get_secret_code in
    let* current_secret := decode reply in
    if bool_decide (submitted_code = Some current_secret) then
      let* _ := kv_sadd_attendance_log (default EmptyString student) in
      ret {| http_status := 200; status := "SUCCESS";
             message := "Welcome, " ++ default EmptyString student
                        ++ ". Your attendance is confirmed." |}
    else
      ret {| http_status := 403; status := "FAILED";
             message := "Incorrect or expired code. Proxy attempt detected?" |}.

(** Lexicographic order on strings, as [sorted] compares them. *)
Definition str_le (a b : string) : Prop := String.leb a b = true.

Global Instance str_le_dec : RelDecision str_le.
Proof. intros a b. unfold str_le. apply _. Defined.

Definition sorted (l : list string) : list string := merge_sort str_le l.

(** [[s.decode('utf-8') for s in members]] *)
Fixpoint decode_each (members : list string) : M (list string) :=
  match members with
  | [] => ret []
  | s :: rest => let* x := bytes_decode s in
                 let* xs := decode_each rest in
                 ret (x :: xs)
  end.

Definition get_attendance_log : M (list string) :=
  let* present_students_bytes := kv_smembers_attendance_log in
  let* decoded := decode_each (elements present_students_bytes) in
  let present_students := sorted decoded in
  ret present_students.

(** ** The specification's vocabulary *)

Definition Accepted (r : response) : Prop :=
  http_status r = 200%nat ∧ status r = "SUCCESS".
Definition Rejected (r : response) : Prop :=
  http_status r = 403%nat ∧ status r = "FAILED".
Definition MissingField (r : response) : Prop :=
  http_status r = 400%nat ∧ status r = "FAILED".

(** [reachable n w]: there is a client and its next [n] round trips reach
    the server. *)
Fixpoint up (n : nat) (l : tape bool) : bool :=
  match n with
  | O => true
  | S n' => peek l && up n' (advance l)
  end.

Definition reachable (n : nat) (w : world) : bool :=
  match kv w with
  | None => false
  | Some l => up n l
  end.

(** Time elapsed since the stored timestamp at the next clock reading, an
    absent timestamp counting as [0]: the exact difference, and the test the
    program makes on the float difference. *)
Definition elapsed (w : world) : Q :=
  (peek (clock w) - default 0 (secret_timestamp (db w)))%Q.

Definition is_stale (w : world) : bool :=
  negb (Qle_bool
          (float_sub (peek (clock w)) (default 0%Q (secret_timestamp (db w))))
          SECRET_REFRESH_INTERVAL_SECONDS).

(** [text b]: the bytes [b] are the encoding of a [str].  [all_text s]:
    every member of the set is. *)
Definition text (b : string) : Prop := valid_utf8 b = true.
Definition all_text (s : gset string) : Prop := ∀ x, x ∈ s → text x.

Definition stale (w : world) : Prop :=
  (SECRET_REFRESH_INTERVAL_SECONDS < elapsed w)%Q.

Definition fresh (w : world) : Prop :=
  (elapsed w <= SECRET_REFRESH_INTERVAL_SECONDS)%Q.

(** The string [random_choices] builds from the dice, and the dice after. *)
Fixpoint drawn (population : list ascii) (k : nat) (r : tape nat) : string :=
  match k with
  | O => EmptyString
  | S k' => String (nth (peek r mod length population) population Ascii.zero)
                   (drawn population k' (advance r))
  end.

Fixpoint skip {A} (k : nat) (r : tape A) : tape A :=
  match k with
  | O => r
  | S k' => skip k' (advance r)
  end.

(** The symbols A to Z then 0 to 9, by position: what the specification
    calls the alphabet, written out by character code. *)
Definition nth_symbol (die : nat) : ascii :=
  ascii_of_nat (if (die <? 26)%nat then 65 + die else 22 + die).

(** The store a rotation leaves. *)
Definition rotated (new_code : string) (stamp : Q) : store :=
  {| secret_code := Some new_code;
     secret_timestamp := Some stamp;
     attendance_log := ∅ |}.

(** The three responses of [verify_attendance]. *)
Definition success (student : string) : response :=
  {| http_status := 200; status := "SUCCESS";
     message := "Welcome, " ++ student ++ ". Your attendance is confirmed." |}.
Definition mismatch : response :=
  {| http_status := 403; status := "FAILED";
     message := "Incorrect or expired code. Proxy attempt detected?" |}.
Definition missing : response :=
  {| http_status := 400; status := "FAILED";
     message := "Missing student_id or code." |}.

(** ** Sample worlds

    A server that always answers, a clock that advances one second per
    reading, and a fixed run of dice. *)
Definition always {A} (a : A) : tape A := Tape (fun _ => a) 0.
Definition ticking (start : Q) : tape Q :=
  Tape (fun n => (start + inject_Z (Z.of_nat n))%Q) 0.
Definition sample_dice : tape nat := Tape (fun n => (7 * n + 3)%nat) 0.

Definition empty_store : store :=
  {| secret_code := None; secret_timestamp := None; attendance_log := ∅ |}.
Definition class_store : store :=
  {| secret_code := Some "DKRY5CJQ";
     secret_timestamp := Some 1700000000%Q;
     attendance_log := {[ "b1"; "a2"; "c0" ]} |}.

(** No client at all; a fresh server; a class in progress, thirty seconds
    and a hundred seconds after the last rotation; and a class in progress
    on a server that has stopped answering. *)
Definition no_client : world :=
  {| kv := None; db := empty_store;
     clock := ticking 1700000000; dice := sample_dice |}.
Definition first_boot : world :=
  {| kv := Some (always true); db := empty_store;
     clock := ticking 1700000000; dice := sample_dice |}.
Definition in_class : world :=
  {| kv := Some (always true); db := class_store;
     clock := ticking 1700000030; dice := sample_dice |}.
Definition after_class : world :=
  {| kv := Some (always true); db := class_store;
     clock := ticking 1700000100; dice := sample_dice |}.
Definition server_down : world :=
  {| kv := Some (always false); db := class_store;
     clock := ticking 1700000030; dice := sample_dice |}.

(** ** The other views and the application *)

(** The body of [GET /api/get-current-code]. *)
Record code_json := CodeJson { json_secret_code : string }.

Definition get_current_code : M code_json :=
  let* secret := get_or_refresh_secret in
  ret {| json_secret_code := secret |}.

(** The body of [GET /]. *)
Record index_json := IndexJson {
  index_status : string;
  index_message : string;
  kv_status : string;
  endpoints : list (string * string)
}.

Definition index : M index_json :=
  let* no_kv := kv_missing in
  ret {| index_status := "online";
         index_message :=
           "Welcome to the Vercel-hosted TrueAttendance Simulator API!";
         kv_status := if negb no_kv then "connected" else "disconnected";
         endpoints :=
           [("GET /api/get-current-code",
             "Fetch the current secret code for attendance.");
            ("POST /api/verify-attendance",
             "Submit a student_id and code to be marked present.");
            ("GET /api/get-attendance-log",
             "View the list of students currently marked as present.")] |}.

(** The four routes.  Requests are served one at a time; a view that raises
    is answered by Flask with a server error, and what the view did before
    raising stays done. *)
Inductive call :=
| GetCurrentCode
| VerifyAttendance (data : request)
| GetAttendanceLog
| Index.

Definition served (c : call) (w : world) : world :=
  match c with
  | GetCurrentCode => snd (get_current_code w)
  | VerifyAttendance data => snd (verify_attendance data w)
  | GetAttendanceLog => snd (get_attendance_log w)
  | Index => snd (index w)
  end.

Definition run (cs : list call) (w : world) : world :=
  fold_left (fun w' c => served c w') cs w.

(** What the program keeps true of the store. *)
Definition code_shape (d : store) : Prop :=
  ∀ c, secret_code d = Some c →
       String.length c = 8%nat ∧
       ∀ ch, In ch (list_ascii_of_string c) → In ch alphabet.

Definition initialised_together (d : store) : Prop :=
  (secret_code d = None ↔ secret_timestamp d = None) ∧
  (secret_code d = None → attendance_log d = ∅).

(** A store of text: the stored code and every member decode.  Requests
    that carry strings: every identity submitted is the encoding of a
    [str]. *)
Definition text_store (d : store) : Prop :=
  (∀ c, secret_code d = Some c → text c) ∧ all_text (attendance_log d).

Definition text_requests (cs : list call) : Prop :=
  ∀ data id, In (VerifyAttendance data) cs → student_id data = Some id → text id.

(** A class whose code was stored at the float nearest 0.1, asked for at
    the float nearest 60.1: more than sixty apart, exactly; sixty apart, as
    floats subtract. *)
Definition float_boundary : world :=
  {| kv := Some (always true);
     db := {| secret_code := Some "DKRY5CJQ";
              secret_timestamp := Some (3602879701896397 # 36028797018963968)%Q;
              attendance_log := {[ "a2" ]} |};
     clock := always (8458323050155213 # 140737488355328)%Q;
     dice := sample_dice |}.

(** A class in progress on a server where something else has written bytes
    that are not UTF-8, as code and as a member. *)
Definition foreign_bytes : world :=
  {| kv := Some (always true);
     db := {| secret_code := Some (String "255"%char EmptyString);
              secret_timestamp := Some 1700000000%Q;
              attendance_log := {[ "a2"; String "255"%char EmptyString ]} |};
     clock := ticking 1700000030; dice := sample_dice |}.

(** A fresh server just after the epoch, where an absent timestamp does not
    look stale. *)
Definition epoch_boot : world :=
  {| kv := Some (always true); db := empty_store;
     clock := ticking 10; dice := sample_dice |}.

(** ** The order on strings *)

Lemma ascii_compare_refl (a : ascii) : Ascii.compare a a = Eq.
Proof. unfold Ascii.compare. apply N.compare_refl. Qed.

Lemma ascii_compare_lt_trans (a b c : ascii) :
  Ascii.compare a b = Lt → Ascii.compare b c = Lt → Ascii.compare a c = Lt.
Proof.
  unfold Ascii.compare. rewrite !N.compare_lt_iff. apply N.lt_trans.
Qed.

Lemma string_leb_trans (a b c : string) :
  String.leb a b = true → String.leb b c = true → String.leb a c = true.
Proof.
  revert b c. induction a as [|x a IH]; intros [|y b] [|z c]; try done.
  unfold String.leb in *. cbn [String.compare].
  destruct (Ascii.compare x y) eqn:Exy; try done;
    destruct (Ascii.compare y z) eqn:Eyz; try done.
  - apply Ascii.compare_eq_iff in Exy, Eyz. subst.
    rewrite ascii_compare_refl. apply IH.
  - apply Ascii.compare_eq_iff in Exy. subst. by rewrite Eyz.
  - apply Ascii.compare_eq_iff in Eyz. subst. by rewrite Exy.
  - by rewrite (ascii_compare_lt_trans x y z).
Qed.

Global Instance str_le_trans : Transitive str_le.
Proof. intros a b c. apply string_leb_trans. Qed.

Global Instance str_le_total : Total str_le.
Proof. intros a b. apply String.leb_total. Qed.

Global Instance str_le_antisym : AntiSymm (=) str_le.
Proof. intros a b. apply String.leb_antisym. Qed.

(** [sorted] returns the ascending arrangement of its argument, and there is
    only one. *)
Lemma sorted_StronglySorted (l : list string) : StronglySorted str_le (sorted l).
Proof. apply StronglySorted_merge_sort; apply _. Qed.

Lemma sorted_Permutation (l : list string) : sorted l ≡ₚ l.
Proof. apply merge_sort_Permutation. Qed.

Lemma sorted_unique (l l' : list string) :
  StronglySorted str_le l' → l' ≡ₚ l → l' = sorted l.
Proof.
  intros Hs Hp. apply (StronglySorted_unique str_le); try done.
  - apply sorted_StronglySorted.
  - by rewrite Hp, sorted_Permutation.
Qed.

Lemma sorted_elements (s : gset string) (l : list string) :
  l = sorted (elements s) →
  StronglySorted str_le l ∧ NoDup l ∧ (∀ x, x ∈ l ↔ x ∈ s).
Proof.
  intros ->. split; [apply sorted_StronglySorted|]. split.
  - rewrite sorted_Permutation. apply NoDup_elements.
  - intros x. rewrite sorted_Permutation. apply elem_of_elements.
Qed.

(** ** Running the primitives *)

Lemma bind_val {A B} (m : M A) (k : A → M B) (w w' : world) (a : A) :
  m w = (Val a, w') → bind m k w = k a w'.
Proof. intros H. unfold bind. by rewrite H. Qed.

Lemma bind_raise {A B} (m : M A) (k : A → M B) (w w' : world) (e : exn) :
  m w = (Raise e, w') → bind m k w = (Raise e, w').
Proof. intros H. unfold bind. by rewrite H. Qed.

Lemma command_no_client {A} (f : store → A * store) (w : world) :
  kv w = None → command f w = (Raise AttributeError, w).
Proof. intros H. unfold command. by rewrite H. Qed.

Lemma command_reached {A} (f : store → A * store) (w : world) (l : tape bool) :
  kv w = Some l → peek l = true →
  command f w =
    (Val (fst (f (db w))), with_db (snd (f (db w))) (with_kv (Some (advance l)) w)).
Proof. intros H Hl. unfold command. rewrite H, Hl. by destruct (f (db w)). Qed.

Lemma command_lost {A} (f : store → A * store) (w : world) (l : tape bool) :
  kv w = Some l → peek l = false →
  command f w = (Raise ConnectionError, with_kv (Some (advance l)) w).
Proof. intros H Hl. unfold command. by rewrite H, Hl. Qed.

(** A command never touches the clock or the dice, and changes the data only
    through what the server ran. *)
Lemma command_frame {A} (f : store → A * store) (w : world) :
  clock (snd (command f w)) = clock w ∧ dice (snd (command f w)) = dice w ∧
  (db (snd (command f w)) = db w ∨ db (snd (command f w)) = snd (f (db w))).
Proof.
  unfold command. destruct (kv w) as [l|]; [|by auto].
  destruct (peek l); [|by auto]. destruct (f (db w)); by auto.
Qed.

Lemma reachable_client (n : nat) (w : world) :
  reachable (S n) w = true →
  ∃ l, kv w = Some l ∧ peek l = true ∧ up n (advance l) = true.
Proof.
  unfold reachable. destruct (kv w) as [l|]; [|done].
  cbn [up]. intros [? ?]%andb_true_iff. by exists l.
Qed.

(** ** The random code *)

Lemma random_choices_run (population : list ascii) (k : nat) (w : world) :
  random_choices population k w =
    (Val (drawn population k (dice w)), with_dice (skip k (dice w)) w).
Proof.
  revert w. induction k as [|k IH]; intros w.
  - destruct w. reflexivity.
  - cbn [random_choices drawn skip].
    unfold bind at 1. unfold random_choice at 1.
    unfold bind at 1. rewrite IH. reflexivity.
Qed.

Lemma drawn_length (population : list ascii) (k : nat) (r : tape nat) :
  String.length (drawn population k r) = k.
Proof. revert r. induction k as [|k IH]; intros r; cbn; [done|]. by rewrite IH. Qed.

Lemma drawn_alphabet (population : list ascii) (k : nat) (r : tape nat) (c : ascii) :
  population ≠ [] →
  In c (list_ascii_of_string (drawn population k r)) → In c population.
Proof.
  intros Hne. revert r. induction k as [|k IH]; intros r; cbn; [done|].
  intros [<-|H]; [|by eapply IH].
  apply nth_In. apply Nat.mod_upper_bound. by destruct population.
Qed.

Lemma alphabet_chars (c : ascii) :
  In c alphabet ↔
  (65 ≤ nat_of_ascii c ≤ 90)%nat ∨ (48 ≤ nat_of_ascii c ≤ 57)%nat.
Proof.
  split.
  - unfold alphabet. cbn [list_ascii_of_string In].
    intros H. repeat (destruct H as [<-|H]; [vm_compute; lia|]). destruct H.
  - intros H. rewrite <- (ascii_nat_embedding c).
    revert H. generalize (nat_of_ascii c). intros n H.
    do 91 (destruct n as [|n]; [try lia; vm_compute; tauto|]). lia.
Qed.

(** ** Text *)

Lemma well_formed_ascii (bs : list nat) :
  Forall (λ b, (b ≤ 127)%nat) bs → well_formed bs = true.
Proof.
  induction 1 as [|b bs Hb _ IH]; [done|].
  cbn [well_formed]. by rewrite (proj2 (Nat.leb_le b 127) Hb).
Qed.

(** A string over the alphabet is text. *)
Lemma alphabet_text (s : string) :
  (∀ ch, In ch (list_ascii_of_string s) → In ch alphabet) → text s.
Proof.
  intros H. unfold text, valid_utf8. apply well_formed_ascii.
  apply Forall_forall. intros b Hb.
  apply list_elem_of_In, in_map_iff in Hb as (ch & <- & Hch).
  apply H, alphabet_chars in Hch. lia.
Qed.

Lemma drawn_text (k : nat) (r : tape nat) : text (drawn alphabet k r).
Proof. apply alphabet_text. intros ch. by apply drawn_alphabet. Qed.

Lemma all_text_elements (s : gset string) :
  all_text s → forallb valid_utf8 (elements s) = true.
Proof.
  intros H. apply forallb_forall. intros x Hx.
  by apply H, elem_of_elements, list_elem_of_In.
Qed.

Lemma all_text_check (s : gset string) :
  forallb valid_utf8 (elements s) = true → all_text s.
Proof.
  intros H x Hx. apply elem_of_elements, list_elem_of_In in Hx.
  by apply (proj1 (forallb_forall _ _) H).
Qed.

Lemma all_text_add (x : string) (s : gset string) :
  text x → all_text s → all_text ({[ x ]} ∪ s).
Proof.
  intros Hx Hs y [->%elem_of_singleton|Hy]%elem_of_union; [done|by apply Hs].
Qed.

Lemma decode_each_run (members : list string) (w : world) :
  decode_each members w =
    (if forallb valid_utf8 members then Val members else Raise UnicodeDecodeError,
     w).
Proof.
  induction members as [|s rest IH]; [done|].
  cbn [decode_each forallb]. unfold bind at 1, bytes_decode.
  destruct (valid_utf8 s); [|done].
  unfold ret at 1, bind at 1. rewrite IH. cbn [andb].
  by destruct (forallb valid_utf8 rest).
Qed.

(** ** The code drawn *)

Lemma drawn_get (population : list ascii) (k i : nat) (r : tape nat) :
  (i < k)%nat →
  String.get i (drawn population k r)
    = Some (nth (feed r (pos r + i) mod length population) population Ascii.zero).
Proof.
  revert i r. induction k as [|k IH]; intros i r Hi; [lia|].
  cbn [drawn]. destruct i as [|i].
  - cbn [String.get]. unfold peek. by rewrite Nat.add_0_r.
  - cbn [String.get]. rewrite IH by lia. cbn [advance feed pos].
    by replace (S (pos r) + i)%nat with (pos r + S i)%nat by lia.
Qed.

Lemma alphabet_nth (die : nat) :
  (die < 36)%nat → nth die alphabet Ascii.zero = nth_symbol die.
Proof.
  intros H. do 36 (destruct die as [|die]; [reflexivity|]). lia.
Qed.

(** ** Rounding *)

Lemma round_half_even_nonneg (n d : Z) :
  (0 <= n)%Z → (0 < d)%Z → (0 <= round_half_even n d)%Z.
Proof.
  intros Hn Hd. unfold round_half_even.
  assert (0 <= n / d)%Z by (apply Z.div_pos; lia).
  destruct (2 * (n mod d) ?= d)%Z; [destruct (Z.even _)| |]; lia.
Qed.

(** Rounding to the nearest integer does not cross an integer. *)
Lemma round_half_even_le (n d k : Z) :
  (0 < d)%Z → (n <= k * d)%Z → (round_half_even n d <= k)%Z.
Proof.
  intros Hd Hn. unfold round_half_even.
  pose proof (Z.div_mod n d ltac:(lia)) as Hdm.
  pose proof (Z.mod_pos_bound n d Hd) as Hm.
  assert (Hq : (n / d <= k)%Z).
  { apply Z.div_le_upper_bound; lia. }
  destruct (Z.eq_dec (n / d)%Z k) as [Heq|Hne].
  - assert (Hz : (n mod d = 0)%Z) by nia. rewrite Hz.
    assert (Hc : (2 * 0 ?= d)%Z = Lt) by (apply Z.compare_lt_iff; lia).
    rewrite Hc. lia.
  - destruct (2 * (n mod d) ?= d)%Z; [destruct (Z.even _)| |]; lia.
Qed.

Lemma binade_le (n d k : Z) :
  (0 < n)%Z → (0 < d)%Z → (0 <= k)%Z → (n < 2 ^ k * d)%Z →
  (binade n d <= k)%Z.
Proof.
  intros Hn Hd Hk Hlt.
  assert (He : (Z.log2 n - Z.log2 d <= k)%Z).
  { pose proof (Z.log2_spec n Hn) as [Hn1 _].
    pose proof (Z.log2_spec d Hd) as [_ Hd2].
    pose proof (Z.log2_nonneg n). pose proof (Z.log2_nonneg d).
    assert (H2 : (2 ^ Z.log2 n < 2 ^ (k + Z.succ (Z.log2 d)))%Z).
    { rewrite Z.pow_add_r by lia.
      assert (0 < 2 ^ k)%Z by (apply Z.pow_pos_nonneg; lia). nia. }
    apply Z.pow_lt_mono_r_iff in H2; lia. }
  unfold binade. destruct (if (0 <=? _)%Z then _ else _); lia.
Qed.

Lemma round_pos_nonneg (n d : positive) : (0 <= round_pos (Z.pos n) (Z.pos d))%Q.
Proof.
  unfold round_pos. set (s := Z.min _ _).
  destruct (0 <=? s)%Z eqn:Hs; unfold Qle; cbn [Qnum Qden]; rewrite Z.mul_1_r.
  - apply Z.leb_le in Hs.
    assert (0 < 2 ^ s)%Z by (apply Z.pow_pos_nonneg; lia).
    apply round_half_even_nonneg; lia.
  - apply Z.leb_gt in Hs.
    assert (0 < 2 ^ (- s))%Z by (apply Z.pow_pos_nonneg; lia).
    assert (0 <= round_half_even (Z.pos n) (Z.pos d * 2 ^ (- s)))%Z
      by (apply round_half_even_nonneg; lia).
    cbn. nia.
Qed.

(** Sixty is a binary64 value, so rounding does not carry a difference
    across it. *)
Lemma round64_le_60 (x : Q) : (x <= 60)%Q → (round64 x <= 60)%Q.
Proof.
  destruct x as [n d]. unfold round64. cbn [Qnum Qden].
  intros Hx. destruct n as [|n|n].
  - done.
  - unfold Qle in Hx. cbn [Qnum Qden] in Hx. unfold round_pos.
    assert (Hb : (binade (Z.pos n) (Z.pos d) <= 6)%Z).
    { apply binade_le; lia. }
    set (s := Z.min (52 - binade (Z.pos n) (Z.pos d)) 1074) in *.
    assert (Hs : (0 <= s)%Z) by lia.
    rewrite (proj2 (Z.leb_le 0 s) Hs).
    assert (Hp : (0 < 2 ^ s)%Z) by (apply Z.pow_pos_nonneg; lia).
    unfold Qle. cbn [Qnum Qden]. rewrite Z2Pos.id by done.
    rewrite Z.mul_1_r. apply round_half_even_le; [lia|]. nia.
  - apply Qle_trans with 0%Q; [|done].
    apply (Qopp_le_compat 0%Q). apply round_pos_nonneg.
Qed.

(** The float test never finds stale what is exactly within the interval;
    so what it finds stale has exactly more than the interval behind it. *)
Lemma fresh_not_stale (w : world) : fresh w → is_stale w = false.
Proof.
  unfold fresh, elapsed, is_stale, float_sub. intros H.
  apply negb_false_iff. rewrite Qle_bool_iff. by apply round64_le_60.
Qed.

Lemma is_stale_stale (w : world) : is_stale w = true → stale w.
Proof.
  intros H. unfold stale. apply Qnot_le_lt. intros Hle.
  by rewrite (fresh_not_stale w Hle) in H.
Qed.

(** The boundary case of the float test: the floats nearest 60.1 and 0.1
    differ by more than sixty, and their float difference is sixty. *)
Example float_sub_boundary :
  (60 < (8458323050155213 # 140737488355328)
        - (3602879701896397 # 36028797018963968))%Q ∧
  Qred (float_sub (8458323050155213 # 140737488355328)
                  (3602879701896397 # 36028797018963968)) = 60%Q.
Proof. split; [reflexivity|]. vm_compute. reflexivity. Qed.

(** ** Running [get_or_refresh_secret] *)

Lemma refresh_no_client (w : world) :
  kv w = None → get_or_refresh_secret w = (Val KV_NOT_AVAILABLE, w).
Proof.
  intros H. unfold get_or_refresh_secret, bind, kv_missing. by rewrite H.
Qed.

(** With a client, the first thing the function does is read the
    timestamp and then the clock. *)
Lemma refresh_first_trip_lost (w : world) (l : tape bool) :
  kv w = Some l → peek l = false →
  get_or_refresh_secret w = (Raise ConnectionError, with_kv (Some (advance l)) w).
Proof.
  intros H Hl. unfold get_or_refresh_secret, bind at 1, kv_missing. rewrite H.
  rewrite bool_decide_eq_false_2 by done.
  apply bind_raise. unfold kv_get_secret_timestamp. by apply command_lost.
Qed.

Lemma refresh_stale_run (w : world) (l : tape bool) :
  kv w = Some l → peek l = true → is_stale w = true →
  get_or_refresh_secret w =
    let new_secret := drawn alphabet 8 (dice w) in
    let stamp := peek (advance (clock w)) in
    if peek (advance l)
    then (Val new_secret,
          {| kv := Some (advance (advance l));
             db := rotated new_secret stamp;
             clock := advance (advance (clock w));
             dice := skip 8 (dice w) |})
    else (Raise ConnectionError,
          {| kv := Some (advance (advance l));
             db := db w;
             clock := advance (advance (clock w));
             dice := skip 8 (dice w) |}).
Proof.
  intros H Hl Hs. unfold is_stale in Hs.
  unfold get_or_refresh_secret, bind at 1, kv_missing. rewrite H.
  rewrite bool_decide_eq_false_2 by done.
  unfold kv_get_secret_timestamp.
  rewrite (bind_val _ _ _ _ _ (command_reached _ w l H Hl)).
  unfold bind at 1, time_time at 1. cbn [fst snd db with_db with_kv clock with_clock].
  rewrite Hs.
  unfold bind at 1. rewrite random_choices_run.
  unfold bind at 1, time_time at 1.
  unfold bind, pipe_execute, command. cbn.
  by destruct (feed l (S (pos l))).
Qed.

Lemma refresh_fresh_run (w : world) (l : tape bool) :
  kv w = Some l → peek l = true → is_stale w = false →
  get_or_refresh_secret w =
    let w' := {| kv := Some (advance (advance l)); db := db w;
                 clock := advance (clock w); dice := dice w |} in
    if peek (advance l)
    then match secret_code (db w) with
         | Some c => if valid_utf8 c then (Val c, w')
                     else (Raise UnicodeDecodeError, w')
         | None => (Raise AttributeError, w')
         end
    else (Raise ConnectionError, w').
Proof.
  intros H Hl Hs. unfold is_stale in Hs.
  unfold get_or_refresh_secret, bind at 1, kv_missing. rewrite H.
  rewrite bool_decide_eq_false_2 by done.
  unfold kv_get_secret_timestamp.
  rewrite (bind_val _ _ _ _ _ (command_reached _ w l H Hl)).
  unfold bind at 1, time_time at 1. cbn [fst snd db with_db with_kv clock with_clock].
  rewrite Hs.
  unfold bind, kv_get_secret_code, command. cbn.
  destruct (feed l (S (pos l))); [|done].
  destruct (secret_code (db w)) as [c|]; [|done].
  unfold decode, bytes_decode. by destruct (valid_utf8 c).
Qed.

(** ** Running [verify_attendance] and [get_attendance_log] *)

Lemma falsy_false (s : string) : s ≠ EmptyString → falsy (Some s) = false.
Proof. intros H. cbn. by apply bool_decide_eq_false_2. Qed.

Lemma falsy_true (x : option string) :
  falsy x = true ↔ x = None ∨ x = Some EmptyString.
Proof.
  destruct x as [s|]; cbn; [|naive_solver]. rewrite bool_decide_eq_true.
  split; [intros ->; by right | intros [?|?]; congruence].
Qed.

Lemma verify_missing_run (data : request) (w : world) :
  falsy (student_id data) || falsy (code data) = true →
  verify_attendance data w = (Val missing, w).
Proof. intros H. unfold verify_attendance. by rewrite H. Qed.

Lemma verify_run (id c : string) (w : world) (l : tape bool) :
  id ≠ EmptyString → c ≠ EmptyString → kv w = Some l → peek l = true →
  verify_attendance (Request (Some id) (Some c)) w =
    match secret_code (db w) with
    | None => (Raise AttributeError, with_kv (Some (advance l)) w)
    | Some current_secret =>
        if valid_utf8 current_secret
        then if bool_decide (c = current_secret)
             then if peek (advance l)
                  then (Val (success id),
                        with_db (sadd id (db w))
                          (with_kv (Some (advance (advance l))) w))
                  else (Raise ConnectionError,
                        with_kv (Some (advance (advance l))) w)
             else (Val mismatch, with_kv (Some (advance l)) w)
        else (Raise UnicodeDecodeError, with_kv (Some (advance l)) w)
    end.
Proof.
  intros Hid Hc H Hl. unfold verify_attendance.
  cbn [student_id code]. rewrite !falsy_false by done. cbn [orb].
  unfold kv_get_secret_code.
  rewrite (bind_val _ _ _ _ _ (command_reached _ w l H Hl)).
  cbn [fst snd]. destruct w as [k d ck dc]. cbn in H. subst k.
  cbn [db]. destruct (secret_code d) as [stored|]; [|done].
  unfold bind at 1, decode, bytes_decode.
  destruct (valid_utf8 stored); [|done]. unfold ret at 1.
  destruct (decide (c = stored)) as [->|Hne].
  - rewrite !bool_decide_eq_true_2 by done.
    unfold bind, kv_sadd_attendance_log, command. cbn.
    by destruct (feed l (S (pos l))).
  - rewrite !bool_decide_eq_false_2 by congruence. done.
Qed.

(** Whatever it is given, [verify_attendance] leaves the code, the
    timestamp, the clock and the dice as they were. *)
Lemma verify_frame (data : request) (w : world) :
  let w' := snd (verify_attendance data w) in
  secret_code (db w') = secret_code (db w) ∧
  secret_timestamp (db w') = secret_timestamp (db w) ∧
  clock w' = clock w ∧ dice w' = dice w.
Proof.
  unfold verify_attendance.
  destruct (falsy (student_id data) || falsy (code data)); [done|].
  unfold bind, kv_get_secret_code, kv_sadd_attendance_log, command, decode,
    bytes_decode, ret, raise.
  destruct w as [[l|] [sc ts log] ck dc]; [|done]. cbn.
  destruct (peek l); cbn; [|done].
  destruct sc as [stored|]; cbn; [|done].
  destruct (valid_utf8 stored); cbn; [|done].
  case_bool_decide; cbn; [|done].
  by destruct (feed l (S (pos l))).
Qed.

Lemma log_run (w : world) (l : tape bool) :
  kv w = Some l → peek l = true →
  get_attendance_log w =
    (if forallb valid_utf8 (elements (attendance_log (db w)))
     then Val (sorted (elements (attendance_log (db w))))
     else Raise UnicodeDecodeError,
     with_db (db w) (with_kv (Some (advance l)) w)).
Proof.
  intros H Hl. unfold get_attendance_log, kv_smembers_attendance_log.
  rewrite (bind_val _ _ _ _ _ (command_reached _ w l H Hl)). cbn [fst snd].
  unfold bind. rewrite decode_each_run.
  by destruct (forallb valid_utf8 _).
Qed.

(** With every member text, the listing is the sorted enumeration. *)
Lemma log_run_text (w : world) (l : tape bool) :
  kv w = Some l → peek l = true → all_text (attendance_log (db w)) →
  get_attendance_log w =
    (Val (sorted (elements (attendance_log (db w)))),
     with_db (db w) (with_kv (Some (advance l)) w)).
Proof.
  intros H Hl Ht. by rewrite (log_run w l H Hl), all_text_elements.
Qed.

(** A set given explicitly is checked by running the decoder over it. *)
Ltac members_text := apply all_text_check; vm_compute; reflexivity.

(** ** Submission *)

(** C1. With a stored secret and non-empty identity and code (the store
    holding text and the identity being a string): a code equal to the
    stored one is accepted and the identity is then listed by
    [get_attendance_log]; any other code is rejected, the store is left as
    it was, and the identity is listed afterwards only if it already was a
    member. *)
Theorem submit_correctness (w : world) (id c stored : string) :
  id ≠ EmptyString → c ≠ EmptyString →
  text id → text stored → all_text (attendance_log (db w)) →
  reachable 3 w = true →
  secret_code (db w) = Some stored →
  ∃ resp w1 present w2,
    verify_attendance (Request (Some id) (Some c)) w = (Val resp, w1) ∧
    get_attendance_log w1 = (Val present, w2) ∧
    (c = stored → Accepted resp ∧ id ∈ present) ∧
    (c ≠ stored →
       Rejected resp ∧ db w1 = db w ∧
       (id ∈ present ↔ id ∈ attendance_log (db w))).
Proof.
  intros Hid Hc Tid Tst Tlog Hr Hs.
  destruct (reachable_client _ _ Hr) as (l & Hkv & Hl & Hup).
  cbn [up] in Hup. apply andb_true_iff in Hup as [Hl1 Hup].
  apply andb_true_iff in Hup as [Hl2 _].
  rewrite (verify_run id c w l Hid Hc Hkv Hl), Hs, Tst.
  destruct (decide (c = stored)) as [->|Hne].
  - rewrite bool_decide_eq_true_2 by done. rewrite Hl1.
    eexists _, _, _, _. split; [done|]. split.
    + apply (log_run_text _ (advance (advance l))); [done|done|].
      cbn. by apply all_text_add.
    + split; [|done]. intros _. split; [done|].
      apply (sorted_elements _ _ eq_refl). cbn.
      by apply elem_of_union_l, elem_of_singleton.
  - rewrite bool_decide_eq_false_2 by done.
    eexists _, _, _, _. split; [done|]. split.
    + by apply (log_run_text _ (advance l)).
    + split; [done|]. intros _. split; [done|]. split; [done|].
      apply (sorted_elements _ _ eq_refl).
Qed.

Lemma submit_correctness_witness :
  ∃ resp w1 present w2,
    verify_attendance (Request (Some "s1") (Some "DKRY5CJQ")) in_class
      = (Val resp, w1) ∧
    get_attendance_log w1 = (Val present, w2) ∧
    ("DKRY5CJQ" = "DKRY5CJQ" → Accepted resp ∧ "s1" ∈ present) ∧
    ("DKRY5CJQ" ≠ "DKRY5CJQ" →
       Rejected resp ∧ db w1 = db in_class ∧
       ("s1" ∈ present ↔ "s1" ∈ attendance_log (db in_class))).
Proof.
  apply (submit_correctness in_class "s1" "DKRY5CJQ" "DKRY5CJQ");
    [done | done | reflexivity | reflexivity | members_text
    | reflexivity | reflexivity].
Defined.

(** C6. A request whose identity or code is absent or empty is answered
    [400 FAILED] and nothing at all changes. *)
Theorem missing_field (w : world) (data : request) :
  student_id data = None ∨ student_id data = Some EmptyString ∨
  code data = None ∨ code data = Some EmptyString →
  ∃ resp, verify_attendance data w = (Val resp, w) ∧ MissingField resp.
Proof.
  intros H. exists missing. split; [|done].
  apply verify_missing_run, orb_true_iff. rewrite !falsy_true. tauto.
Qed.

Lemma missing_field_witness :
  ∃ resp,
    verify_attendance (Request (Some EmptyString) (Some "ABC123")) in_class
      = (Val resp, in_class) ∧ MissingField resp.
Proof.
  apply (missing_field in_class (Request (Some EmptyString) (Some "ABC123"))).
  right. left. reflexivity.
Defined.

(** C7. [verify_attendance] never rotates: whatever the request, the clock
    and the elapsed time, the stored code and timestamp are what they were
    and neither the clock nor the random source is consulted; and the
    verdict on a stored code (text, as every code a rotation stores) is the
    equality of the submitted code with it. *)
Theorem submit_never_rotates (w : world) (data : request) :
  secret_code (db (snd (verify_attendance data w))) = secret_code (db w) ∧
  secret_timestamp (db (snd (verify_attendance data w)))
    = secret_timestamp (db w) ∧
  clock (snd (verify_attendance data w)) = clock w ∧
  dice (snd (verify_attendance data w)) = dice w ∧
  ∀ id c stored,
    data = Request (Some id) (Some c) →
    id ≠ EmptyString → c ≠ EmptyString →
    reachable 2 w = true → secret_code (db w) = Some stored →
    text stored →
    ∃ resp, fst (verify_attendance data w) = Val resp ∧
            (c = stored → Accepted resp) ∧ (c ≠ stored → Rejected resp).
Proof.
  destruct (verify_frame data w) as (H1 & H2 & H3 & H4).
  do 4 (split; [done|]).
  intros id c stored -> Hid Hc Hr Hs Tst.
  destruct (reachable_client _ _ Hr) as (l & Hkv & Hl & Hup).
  cbn [up] in Hup. apply andb_true_iff in Hup as [Hl1 _].
  rewrite (verify_run id c w l Hid Hc Hkv Hl), Hs, Tst.
  case_bool_decide; [rewrite Hl1|]; eexists; (split; [done|]); by split.
Qed.

(** C10. Before the first rotation there is no stored code: a well-formed
    submission then raises [AttributeError] on [.decode] of the missing
    reply, with the store untouched, and is not answered at all.  With the
    server reached, [verify_attendance] answers exactly when a code is
    stored that [.decode] accepts, as every code a rotation stores is. *)
Theorem submit_before_first_rotation (w : world) (id c : string) :
  id ≠ EmptyString → c ≠ EmptyString →
  reachable 2 w = true →
  (secret_code (db w) = None →
     ∃ w1, verify_attendance (Request (Some id) (Some c)) w
             = (Raise AttributeError, w1) ∧ db w1 = db w) ∧
  ((∃ resp w1, verify_attendance (Request (Some id) (Some c)) w = (Val resp, w1))
     ↔ ∃ stored, secret_code (db w) = Some stored ∧ text stored).
Proof.
  intros Hid Hc Hr.
  destruct (reachable_client _ _ Hr) as (l & Hkv & Hl & Hup).
  cbn [up] in Hup. apply andb_true_iff in Hup as [Hl1 _].
  rewrite (verify_run id c w l Hid Hc Hkv Hl).
  destruct (secret_code (db w)) as [stored|].
  - split; [done|]. unfold text.
    destruct (valid_utf8 stored) eqn:Tst.
    + split; [by eauto|]. intros _.
      case_bool_decide; [rewrite Hl1|]; by eauto.
    + split; [intros (? & ? & [=])|intros (? & [= <-] & ?); congruence].
  - split; [by eauto|]. split; [intros (? & ? & [=]) | intros (? & [=] & _)].
Qed.

Lemma submit_before_first_rotation_witness :
  (secret_code (db first_boot) = None →
     ∃ w1, verify_attendance (Request (Some "s1") (Some "ABC123")) first_boot
             = (Raise AttributeError, w1) ∧ db w1 = db first_boot) ∧
  ((∃ resp w1, verify_attendance (Request (Some "s1") (Some "ABC123")) first_boot
                 = (Val resp, w1))
     ↔ ∃ stored, secret_code (db first_boot) = Some stored ∧ text stored).
Proof.
  apply (submit_before_first_rotation first_boot "s1" "ABC123");
    [done | done | reflexivity].
Defined.

(** C9. Two accepted submissions of one identity (a string, into a store
    holding text) leave the store exactly as one does, both are answered
    [200 SUCCESS], and the identity is listed once. *)
Theorem submit_idempotent (w : world) (id c : string) :
  id ≠ EmptyString → c ≠ EmptyString →
  text id → text c → all_text (attendance_log (db w)) →
  reachable 5 w = true →
  secret_code (db w) = Some c →
  ∃ r1 w1 r2 w2 present w3,
    verify_attendance (Request (Some id) (Some c)) w = (Val r1, w1) ∧
    verify_attendance (Request (Some id) (Some c)) w1 = (Val r2, w2) ∧
    get_attendance_log w2 = (Val present, w3) ∧
    Accepted r1 ∧ Accepted r2 ∧
    db w2 = db w1 ∧
    count_occ string_dec present id = 1%nat.
Proof.
  intros Hid Hc Tid Tc Tlog Hr Hs.
  destruct (reachable_client _ _ Hr) as (l & Hkv & Hl & Hup).
  cbn [up] in Hup.
  apply andb_true_iff in Hup as [Hl1 Hup].
  apply andb_true_iff in Hup as [Hl2 Hup].
  apply andb_true_iff in Hup as [Hl3 Hup].
  apply andb_true_iff in Hup as [Hl4 _].
  set (w1 := with_db (sadd id (db w)) (with_kv (Some (advance (advance l))) w)).
  set (l2 := advance (advance l)) in *.
  set (w2 := with_db (sadd id (db w1)) (with_kv (Some (advance (advance l2))) w1)).
  assert (H1 : verify_attendance (Request (Some id) (Some c)) w = (Val (success id), w1)).
  { rewrite (verify_run id c w l Hid Hc Hkv Hl), Hs, Tc.
    rewrite bool_decide_eq_true_2 by done. by rewrite Hl1. }
  assert (H2 : verify_attendance (Request (Some id) (Some c)) w1 = (Val (success id), w2)).
  { rewrite (verify_run id c w1 l2 Hid Hc eq_refl Hl2).
    cbn [w1 db with_db sadd secret_code]. rewrite Hs, Tc.
    rewrite bool_decide_eq_true_2 by done. by rewrite Hl3. }
  exists (success id), w1, (success id), w2.
  eexists _, _. split; [done|]. split; [done|]. split.
  { apply (log_run_text w2 (advance (advance l2))); [done|done|].
    unfold w2, w1, sadd. cbn [db with_db with_kv attendance_log].
    apply all_text_add; [done|]. by apply all_text_add. }
  do 2 (split; [done|]). split.
  - unfold w2, w1, sadd. cbn. f_equal.
    by rewrite (assoc_L (∪)), union_idemp_L.
  - destruct (sorted_elements (attendance_log (db w2)) _ eq_refl) as (_ & Hnd & Hin).
    apply NoDup_count_occ'; [by apply NoDup_ListNoDup|].
    apply list_elem_of_In, Hin. cbn.
    by apply elem_of_union_l, elem_of_singleton.
Qed.

Lemma submit_idempotent_witness :
  ∃ r1 w1 r2 w2 present w3,
    verify_attendance (Request (Some "s1") (Some "DKRY5CJQ")) in_class
      = (Val r1, w1) ∧
    verify_attendance (Request (Some "s1") (Some "DKRY5CJQ")) w1 = (Val r2, w2) ∧
    get_attendance_log w2 = (Val present, w3) ∧
    Accepted r1 ∧ Accepted r2 ∧
    db w2 = db w1 ∧
    count_occ string_dec present "s1" = 1%nat.
Proof.
  apply (submit_idempotent in_class "s1" "DKRY5CJQ");
    [done | done | reflexivity | reflexivity | members_text
    | reflexivity | reflexivity].
Defined.

(** ** Listing *)

(** C8. With the server reached and a set of text, [get_attendance_log]
    returns the members of the attendance set, each once, in ascending
    order; the empty list for the empty set; and the store is left as it
    was. *)
Theorem list_present_sorted (w : world) :
  reachable 1 w = true →
  all_text (attendance_log (db w)) →
  ∃ present w1,
    get_attendance_log w = (Val present, w1) ∧
    db w1 = db w ∧
    StronglySorted str_le present ∧
    NoDup present ∧
    (∀ x, x ∈ present ↔ x ∈ attendance_log (db w)) ∧
    (attendance_log (db w) = ∅ → present = []).
Proof.
  intros Hr Ht. destruct (reachable_client _ _ Hr) as (l & Hkv & Hl & _).
  rewrite (log_run_text w l Hkv Hl Ht).
  eexists _, _. split; [done|]. split; [done|].
  destruct (sorted_elements (attendance_log (db w)) _ eq_refl)
    as (Hs & Hnd & Hin).
  do 3 (split; [done|]).
  intros ->. by rewrite elements_empty.
Qed.

Lemma list_present_sorted_witness :
  ∃ present w1,
    get_attendance_log in_class = (Val present, w1) ∧
    db w1 = db in_class ∧
    StronglySorted str_le present ∧
    NoDup present ∧
    (∀ x, x ∈ present ↔ x ∈ attendance_log (db in_class)) ∧
    (attendance_log (db in_class) = ∅ → present = []).
Proof.
  apply (list_present_sorted in_class); [reflexivity | members_text].
Defined.

(** The specification's example: the set {b1, a2, c0} is listed as
    a2, b1, c0. *)
Example list_present_example :
  fst (get_attendance_log in_class) = Val ["a2"; "b1"; "c0"].
Proof. vm_compute. reflexivity. Qed.

(** ** Rotation *)

(** C2. When the program finds the stored timestamp stale (the float
    difference of the clock and the timestamp exceeds the interval), it
    draws a code of eight characters, the i-th being the symbol of
    A-Z, 0-9 that the i-th draw selects, reads the clock again and sends
    one transaction.  If the transaction reaches the server, the store
    becomes exactly the new code, that second clock reading and the empty
    attendance set, and the new code is returned; if it does not, the call
    raises and the store is as it was before the call. *)
Theorem rotation_when_stale (w : world) (l : tape bool) :
  kv w = Some l → peek l = true → is_stale w = true →
  ∃ new_code,
    String.length new_code = 8%nat ∧
    (∀ i, (i < 8)%nat →
          String.get i new_code
            = Some (nth_symbol (feed (dice w) (pos (dice w) + i) mod 36))) ∧
    (∀ ch, In ch (list_ascii_of_string new_code) →
           In ch alphabet ∧
           ((65 ≤ nat_of_ascii ch ≤ 90)%nat ∨ (48 ≤ nat_of_ascii ch ≤ 57)%nat)) ∧
    (peek (advance l) = true →
       fst (get_or_refresh_secret w) = Val new_code ∧
       db (snd (get_or_refresh_secret w))
         = rotated new_code (peek (advance (clock w)))) ∧
    (peek (advance l) = false →
       fst (get_or_refresh_secret w) = Raise ConnectionError ∧
       db (snd (get_or_refresh_secret w)) = db w).
Proof.
  intros Hkv Hl Hs. exists (drawn alphabet 8 (dice w)).
  split; [apply drawn_length|]. split; [|split].
  - intros i Hi. rewrite drawn_get by done.
    f_equal. apply alphabet_nth. by apply Nat.mod_upper_bound.
  - intros ch Hch. apply drawn_alphabet in Hch; [|done].
    split; [done|]. by apply alphabet_chars.
  - rewrite (refresh_stale_run w l Hkv Hl Hs). cbn zeta.
    split; intros ->; done.
Qed.

Lemma rotation_when_stale_witness :
  ∃ new_code,
    String.length new_code = 8%nat ∧
    (∀ i, (i < 8)%nat →
          String.get i new_code
            = Some (nth_symbol
                      (feed (dice after_class) (pos (dice after_class) + i) mod 36))) ∧
    (∀ ch, In ch (list_ascii_of_string new_code) →
           In ch alphabet ∧
           ((65 ≤ nat_of_ascii ch ≤ 90)%nat ∨ (48 ≤ nat_of_ascii ch ≤ 57)%nat)) ∧
    (peek (advance (always true)) = true →
       fst (get_or_refresh_secret after_class) = Val new_code ∧
       db (snd (get_or_refresh_secret after_class))
         = rotated new_code (peek (advance (clock after_class)))) ∧
    (peek (advance (always true)) = false →
       fst (get_or_refresh_secret after_class) = Raise ConnectionError ∧
       db (snd (get_or_refresh_secret after_class)) = db after_class).
Proof.
  apply (rotation_when_stale after_class (always true));
    [reflexivity | reflexivity | by vm_compute].
Defined.

(** The run of dice in the sample worlds gives this code. *)
Example rotation_example :
  fst (get_or_refresh_secret after_class) = Val "DKRY5CJQ" ∧
  db (snd (get_or_refresh_secret after_class))
    = rotated "DKRY5CJQ" 1700000101%Q.
Proof. split; vm_compute; reflexivity. Qed.

(** At the boundary of the float test the program does not rotate, though
    the exact difference exceeds the interval. *)
Example float_boundary_example :
  stale float_boundary ∧ is_stale float_boundary = false ∧
  fst (get_or_refresh_secret float_boundary) = Val "DKRY5CJQ" ∧
  db (snd (get_or_refresh_secret float_boundary)) = db float_boundary.
Proof. repeat split; vm_compute; reflexivity. Qed.

(** C3. Two calls that both find the timestamp within the interval return
    the stored code (text, as every code a rotation stores) both times, and
    neither changes the store. *)
Theorem same_code_within_window (w : world) (c : string) :
  reachable 4 w = true →
  secret_code (db w) = Some c →
  text c →
  fresh w →
  fresh (snd (get_or_refresh_secret w)) →
  ∃ w1 w2,
    get_or_refresh_secret w = (Val c, w1) ∧
    get_or_refresh_secret w1 = (Val c, w2) ∧
    db w1 = db w ∧ db w2 = db w1.
Proof.
  intros Hr Hc Tc Hf.
  destruct (reachable_client _ _ Hr) as (l & Hkv & Hl & Hup).
  cbn [up] in Hup.
  apply andb_true_iff in Hup as [Hl1 Hup].
  apply andb_true_iff in Hup as [Hl2 Hup].
  apply andb_true_iff in Hup as [Hl3 _].
  rewrite (refresh_fresh_run w l Hkv Hl (fresh_not_stale w Hf)).
  cbn zeta. rewrite Hl1, Hc, Tc.
  cbn [snd]. intros Hf1.
  eexists _, _. split; [done|].
  erewrite (refresh_fresh_run _ (advance (advance l)));
    [|reflexivity|exact Hl2|exact (fresh_not_stale _ Hf1)].
  cbn zeta. cbn [db]. rewrite Hl3, Hc, Tc. done.
Qed.

Lemma same_code_within_window_witness :
  ∃ w1 w2,
    get_or_refresh_secret in_class = (Val "DKRY5CJQ", w1) ∧
    get_or_refresh_secret w1 = (Val "DKRY5CJQ", w2) ∧
    db w1 = db in_class ∧ db w2 = db w1.
Proof.
  apply (same_code_within_window in_class "DKRY5CJQ");
    [reflexivity | reflexivity | reflexivity | by vm_compute | by vm_compute].
Defined.

(** A rotation followed by a call that finds the new timestamp fresh: the
    second call returns the code the rotation made. *)
Lemma rotation_then_read (w : world) :
  reachable 4 w = true →
  is_stale w = true →
  fresh (snd (get_or_refresh_secret w)) →
  ∃ new_code w1 w2,
    get_or_refresh_secret w = (Val new_code, w1) ∧
    get_or_refresh_secret w1 = (Val new_code, w2) ∧
    db w2 = db w1.
Proof.
  intros Hr Hs.
  destruct (reachable_client _ _ Hr) as (l & Hkv & Hl & Hup).
  cbn [up] in Hup.
  apply andb_true_iff in Hup as [Hl1 Hup].
  apply andb_true_iff in Hup as [Hl2 Hup].
  apply andb_true_iff in Hup as [Hl3 _].
  rewrite (refresh_stale_run w l Hkv Hl Hs). cbn zeta. rewrite Hl1.
  cbn [snd]. intros Hf1.
  eexists _, _, _. split; [done|].
  erewrite (refresh_fresh_run _ (advance (advance l)));
    [|reflexivity|exact Hl2|exact (fresh_not_stale _ Hf1)].
  cbn zeta. cbn [db rotated secret_code]. rewrite Hl3.
  by rewrite (drawn_text 8 (dice w)).
Qed.

(** C4. A rotation that completes (the program having found the timestamp
    stale) leaves the attendance set empty: an identity that was present is
    not any more, and the next listing is empty. *)
Theorem rotation_clears_present_set (w : world) (id : string) :
  id ∈ attendance_log (db w) →
  reachable 3 w = true →
  is_stale w = true →
  ∃ new_code w1 w2,
    get_or_refresh_secret w = (Val new_code, w1) ∧
    attendance_log (db w1) = ∅ ∧
    (id ∉ attendance_log (db w1)) ∧
    get_attendance_log w1 = (Val [], w2).
Proof.
  intros _ Hr Hs.
  destruct (reachable_client _ _ Hr) as (l & Hkv & Hl & Hup).
  cbn [up] in Hup.
  apply andb_true_iff in Hup as [Hl1 Hup].
  apply andb_true_iff in Hup as [Hl2 _].
  rewrite (refresh_stale_run w l Hkv Hl Hs). cbn zeta. rewrite Hl1.
  eexists _, _, _. split; [done|]. split; [done|]. split.
  - cbn. apply not_elem_of_empty.
  - erewrite (log_run _ (advance (advance l))); [|reflexivity|exact Hl2].
    cbn [db rotated attendance_log].
    by rewrite elements_empty.
Qed.

Lemma rotation_clears_present_set_witness :
  ∃ new_code w1 w2,
    get_or_refresh_secret after_class = (Val new_code, w1) ∧
    attendance_log (db w1) = ∅ ∧
    ("a2" ∉ attendance_log (db w1)) ∧
    get_attendance_log w1 = (Val [], w2).
Proof.
  apply (rotation_clears_present_set after_class "a2");
    [by vm_compute | reflexivity | by vm_compute].
Defined.

(** ** An unreachable store *)

(** C5, as the specification puts it, fails: with no client the function
    answers the placeholder as if it were a code and raises nothing. *)
Lemma no_client_returns_placeholder :
  reachable 1 no_client = false ∧
  get_or_refresh_secret no_client = (Val "KV_NOT_AVAILABLE", no_client) ∧
  ∀ e w1, get_or_refresh_secret no_client ≠ (Raise e, w1).
Proof.
  split; [reflexivity|]. split; [reflexivity|]. intros e w1 [=].
Qed.

(** C5, amended.  When there is no client the function returns the fixed
    string KV_NOT_AVAILABLE and touches nothing.  When there is a client
    and one of the two round trips of the call does not reach the server,
    the call raises [ConnectionError], returns no code, and the store is
    as it was. *)
Theorem unreachable_store (w : world) :
  reachable 2 w = false →
  (kv w = None → get_or_refresh_secret w = (Val KV_NOT_AVAILABLE, w)) ∧
  (∀ l, kv w = Some l →
        ∃ w1, get_or_refresh_secret w = (Raise ConnectionError, w1) ∧
              db w1 = db w).
Proof.
  intros Hr. split; [apply refresh_no_client|].
  intros l Hkv. unfold reachable in Hr. rewrite Hkv in Hr. cbn [up] in Hr.
  destruct (peek l) eqn:Hl.
  - rewrite andb_true_r in Hr. cbn [andb] in Hr.
    destruct (is_stale w) eqn:Hs.
    + rewrite (refresh_stale_run w l Hkv Hl Hs). cbn zeta. rewrite Hr. by eauto.
    + rewrite (refresh_fresh_run w l Hkv Hl Hs). cbn zeta. rewrite Hr. by eauto.
  - rewrite (refresh_first_trip_lost w l Hkv Hl). by eauto.
Qed.

Lemma unreachable_store_witness :
  (kv no_client = None →
     get_or_refresh_secret no_client = (Val KV_NOT_AVAILABLE, no_client)) ∧
  (∀ l, kv no_client = Some l →
        ∃ w1, get_or_refresh_secret no_client = (Raise ConnectionError, w1) ∧
              db w1 = db no_client).
Proof. apply (unreachable_store no_client). reflexivity. Defined.

(** A client whose server does not answer: the call raises. *)
Example server_down_example :
  fst (get_or_refresh_secret server_down) = Raise ConnectionError ∧
  db (snd (get_or_refresh_secret server_down)) = db server_down.
Proof. split; reflexivity. Qed.

(** ** The specification's scenario *)

(** Rotate to get the code; alice submits it and is accepted; bob submits
    another and is rejected; the listing is alice alone. *)
Example end_to_end :
  let w1 := snd (get_or_refresh_secret first_boot) in
  let w2 := snd (verify_attendance (Request (Some "alice") (Some "DKRY5CJQ")) w1) in
  let w3 := snd (verify_attendance (Request (Some "bob") (Some "Y")) w2) in
  fst (get_or_refresh_secret first_boot) = Val "DKRY5CJQ" ∧
  fst (verify_attendance (Request (Some "alice") (Some "DKRY5CJQ")) w1)
    = Val (success "alice") ∧
  Accepted (success "alice") ∧
  fst (verify_attendance (Request (Some "bob") (Some "Y")) w2) = Val mismatch ∧
  Rejected mismatch ∧
  fst (get_attendance_log w3) = Val ["alice"].
Proof.
  cbv zeta. split; [vm_compute; reflexivity|].
  split; [vm_compute; reflexivity|]. split; [done|].
  split; [vm_compute; reflexivity|]. split; [done|].
  vm_compute. reflexivity.
Qed.

(** ** Every outcome of the three views *)

(** [get_or_refresh_secret] either leaves the store as it was or, having
    found the timestamp stale and reached the server twice, returns the code
    it drew and leaves the rotated store. *)
Lemma refresh_outcome (w : world) :
  db (snd (get_or_refresh_secret w)) = db w ∨
  (stale w ∧ is_stale w = true ∧
   (∃ l, kv w = Some l ∧ peek l = true ∧ peek (advance l) = true) ∧
   fst (get_or_refresh_secret w) = Val (drawn alphabet 8 (dice w)) ∧
   db (snd (get_or_refresh_secret w))
     = rotated (drawn alphabet 8 (dice w)) (peek (advance (clock w)))).
Proof.
  destruct (kv w) as [l|] eqn:Hkv; [|left; by rewrite refresh_no_client].
  destruct (peek l) eqn:Hl; [|left; by rewrite (refresh_first_trip_lost w l)].
  destruct (is_stale w) eqn:Hs.
  - rewrite (refresh_stale_run w l Hkv Hl Hs). cbn zeta.
    destruct (peek (advance l)) eqn:Hl1; [right|left; done].
    split; [by apply is_stale_stale|]. split; [done|].
    split; [by exists l|]. done.
  - left. rewrite (refresh_fresh_run w l Hkv Hl Hs). cbn zeta.
    destruct (peek (advance l)); [|done].
    destruct (secret_code (db w)) as [c|]; [|done].
    by destruct (valid_utf8 c).
Qed.

(** With a client, a call that returns has reached the server twice and
    returns the code that is stored afterwards. *)
Lemma refresh_returns (w w1 : world) (l : tape bool) (c : string) :
  kv w = Some l → get_or_refresh_secret w = (Val c, w1) →
  peek l = true ∧ peek (advance l) = true ∧
  kv w1 = Some (advance (advance l)) ∧
  secret_code (db w1) = Some c ∧ text c ∧
  ((is_stale w = true ∧ c = drawn alphabet 8 (dice w)) ∨
   (is_stale w = false ∧ db w1 = db w)).
Proof.
  intros Hkv. destruct (peek l) eqn:Hl;
    [|by rewrite (refresh_first_trip_lost w l)].
  destruct (is_stale w) eqn:Hs.
  - rewrite (refresh_stale_run w l Hkv Hl Hs). cbn zeta.
    destruct (peek (advance l)); [|done]. intros [= <- <-].
    pose proof (drawn_text 8 (dice w)). by auto 10.
  - rewrite (refresh_fresh_run w l Hkv Hl Hs). cbn zeta.
    destruct (peek (advance l)); [|done].
    destruct (secret_code (db w)) as [c'|] eqn:Hc; [|done].
    destruct (valid_utf8 c') eqn:Tc; [|done].
    intros [= <- <-]. by auto 10.
Qed.

(** [verify_attendance] either leaves the store as it was or, the fields
    being there and the code being the stored one, answers the welcome and
    adds the identity. *)
Lemma verify_outcome (data : request) (w : world) :
  (db (snd (verify_attendance data w)) = db w ∧
   ∀ resp, fst (verify_attendance data w) = Val resp →
           resp = missing ∨ resp = mismatch) ∨
  (∃ id c, student_id data = Some id ∧ id ≠ EmptyString ∧
           code data = Some c ∧ c ≠ EmptyString ∧
           secret_code (db w) = Some c ∧
           fst (verify_attendance data w) = Val (success id) ∧
           db (snd (verify_attendance data w)) = sadd id (db w)).
Proof.
  destruct (falsy (student_id data) || falsy (code data)) eqn:Hf.
  { left. rewrite (verify_missing_run data w Hf). split; [done|].
    intros resp [= <-]. by left. }
  apply orb_false_iff in Hf as [Hf1 Hf2].
  destruct data as [[id|] [c|]]; try done. cbn in Hf1, Hf2.
  apply bool_decide_eq_false in Hf1, Hf2. cbn [student_id code].
  destruct (kv w) as [l|] eqn:Hkv.
  2:{ left. unfold verify_attendance. cbn [student_id code].
      rewrite !falsy_false by done. cbn [orb].
      unfold kv_get_secret_code.
      rewrite (bind_raise _ _ _ _ _ (command_no_client _ w Hkv)).
      split; [done|]. intros resp [=]. }
  destruct (peek l) eqn:Hl.
  2:{ left. unfold verify_attendance. cbn [student_id code].
      rewrite !falsy_false by done. cbn [orb].
      unfold kv_get_secret_code.
      rewrite (bind_raise _ _ _ _ _ (command_lost _ w l Hkv Hl)).
      split; [done|]. intros resp [=]. }
  rewrite (verify_run id c w l Hf1 Hf2 Hkv Hl).
  destruct (secret_code (db w)) as [stored|] eqn:Hs.
  2:{ left. split; [done|]. intros resp [=]. }
  destruct (valid_utf8 stored) eqn:Tst.
  2:{ left. split; [done|]. intros resp [=]. }
  case_bool_decide as Heq.
  - destruct (peek (advance l)).
    + right. exists id, c. subst. by auto 10.
    + left. split; [done|]. intros resp [=].
  - left. split; [done|]. intros resp [= <-]. by right.
Qed.

Lemma index_run (w : world) :
  index w =
    (Val {| index_status := "online";
            index_message :=
              "Welcome to the Vercel-hosted TrueAttendance Simulator API!";
            kv_status := match kv w with
                         | Some _ => "connected"
                         | None => "disconnected"
                         end;
            endpoints :=
              [("GET /api/get-current-code",
                "Fetch the current secret code for attendance.");
               ("POST /api/verify-attendance",
                "Submit a student_id and code to be marked present.");
               ("GET /api/get-attendance-log",
                "View the list of students currently marked as present.")] |},
     w).
Proof. unfold index, bind, kv_missing, ret. by destruct (kv w). Qed.

Lemma get_current_code_world (w : world) :
  snd (get_current_code w) = snd (get_or_refresh_secret w).
Proof.
  unfold get_current_code, bind. by destruct (get_or_refresh_secret w) as [[c|e] w1].
Qed.

Lemma verify_no_client (id c : string) (w : world) :
  id ≠ EmptyString → c ≠ EmptyString → kv w = None →
  verify_attendance (Request (Some id) (Some c)) w = (Raise AttributeError, w).
Proof.
  intros Hid Hc Hkv. unfold verify_attendance. cbn [student_id code].
  rewrite !falsy_false by done. cbn [orb]. unfold kv_get_secret_code.
  by rewrite (bind_raise _ _ _ _ _ (command_no_client _ w Hkv)).
Qed.

Lemma log_no_client (w : world) :
  kv w = None → get_attendance_log w = (Raise AttributeError, w).
Proof.
  intros Hkv. unfold get_attendance_log, kv_smembers_attendance_log.
  by rewrite (bind_raise _ _ _ _ _ (command_no_client _ w Hkv)).
Qed.

Lemma log_lost (w : world) (l : tape bool) :
  kv w = Some l → peek l = false →
  get_attendance_log w = (Raise ConnectionError, with_kv (Some (advance l)) w).
Proof.
  intros Hkv Hl. unfold get_attendance_log, kv_smembers_attendance_log.
  by rewrite (bind_raise _ _ _ _ _ (command_lost _ w l Hkv Hl)).
Qed.

(** [get_attendance_log] and [index] never write. *)
Lemma log_frame (w : world) :
  db (snd (get_attendance_log w)) = db w ∧
  clock (snd (get_attendance_log w)) = clock w ∧
  dice (snd (get_attendance_log w)) = dice w.
Proof.
  destruct (kv w) as [l|] eqn:Hkv; [|by rewrite log_no_client].
  destruct (peek l) eqn:Hl; [|by rewrite (log_lost w l)].
  by rewrite (log_run w l).
Qed.

(** ** What an attendance submission can and cannot do *)

(** X1. A well-formed submission that cannot be checked is not recorded:
    with no client the lookup on [None] raises and nothing changes; when the
    read of the code is lost, or the code (a string) is right but the
    [SADD] is lost, the call raises [ConnectionError] and the store is as
    it was. *)
Theorem verify_attendance_failures (w : world) (id c : string) :
  id ≠ EmptyString → c ≠ EmptyString →
  (kv w = None →
     verify_attendance (Request (Some id) (Some c)) w = (Raise AttributeError, w)) ∧
  (∀ l, kv w = Some l → peek l = false →
        fst (verify_attendance (Request (Some id) (Some c)) w)
          = Raise ConnectionError ∧
        db (snd (verify_attendance (Request (Some id) (Some c)) w)) = db w) ∧
  (∀ l, kv w = Some l → peek l = true → peek (advance l) = false →
        secret_code (db w) = Some c → text c →
        fst (verify_attendance (Request (Some id) (Some c)) w)
          = Raise ConnectionError ∧
        db (snd (verify_attendance (Request (Some id) (Some c)) w)) = db w).
Proof.
  intros Hid Hc. split; [|split].
  - by apply verify_no_client.
  - intros l Hkv Hl. unfold verify_attendance. cbn [student_id code].
    rewrite !falsy_false by done. cbn [orb]. unfold kv_get_secret_code.
    by rewrite (bind_raise _ _ _ _ _ (command_lost _ w l Hkv Hl)).
  - intros l Hkv Hl Hl1 Hs Tc.
    rewrite (verify_run id c w l Hid Hc Hkv Hl), Hs, Tc.
    rewrite bool_decide_eq_true_2 by done. by rewrite Hl1.
Qed.

Lemma verify_attendance_failures_witness :
  (kv no_client = None →
     verify_attendance (Request (Some "s1") (Some "DKRY5CJQ")) no_client
       = (Raise AttributeError, no_client)) ∧
  (∀ l, kv no_client = Some l → peek l = false →
        fst (verify_attendance (Request (Some "s1") (Some "DKRY5CJQ")) no_client)
          = Raise ConnectionError ∧
        db (snd (verify_attendance (Request (Some "s1") (Some "DKRY5CJQ")) no_client))
          = db no_client) ∧
  (∀ l, kv no_client = Some l → peek l = true → peek (advance l) = false →
        secret_code (db no_client) = Some "DKRY5CJQ" → text "DKRY5CJQ" →
        fst (verify_attendance (Request (Some "s1") (Some "DKRY5CJQ")) no_client)
          = Raise ConnectionError ∧
        db (snd (verify_attendance (Request (Some "s1") (Some "DKRY5CJQ")) no_client))
          = db no_client).
Proof. apply (verify_attendance_failures no_client "s1" "DKRY5CJQ"); done. Defined.

(** X2. A welcome is only ever given for the stored code: if the view
    answers 200 then both fields were there, the submitted code is the code
    in the store, the answer is the welcome for that identity, and the
    identity is in the attendance set afterwards. *)
Theorem accepted_only_with_stored_code (data : request) (w : world) (resp : response) :
  fst (verify_attendance data w) = Val resp →
  http_status resp = 200%nat →
  ∃ id, student_id data = Some id ∧ id ≠ EmptyString ∧
        code data = secret_code (db w) ∧
        resp = success id ∧
        id ∈ attendance_log (db (snd (verify_attendance data w))).
Proof.
  intros Hr Hst.
  destruct (verify_outcome data w) as [[_ H]|(id & c & Hi & Hin & Hc & _ & Hs & Hf & Hd)].
  - destruct (H resp Hr) as [-> | ->]; discriminate Hst.
  - exists id. rewrite Hf in Hr. injection Hr as <-.
    rewrite Hd, Hc, Hs. do 4 (split; [done|]).
    cbn. by apply elem_of_union_l, elem_of_singleton.
Qed.

Lemma accepted_only_with_stored_code_witness :
  ∃ id, student_id (Request (Some "s1") (Some "DKRY5CJQ")) = Some id ∧
        id ≠ EmptyString ∧
        code (Request (Some "s1") (Some "DKRY5CJQ")) = secret_code (db in_class) ∧
        success "s1" = success id ∧
        id ∈ attendance_log
               (db (snd (verify_attendance
                           (Request (Some "s1") (Some "DKRY5CJQ")) in_class))).
Proof.
  apply (accepted_only_with_stored_code
           (Request (Some "s1") (Some "DKRY5CJQ")) in_class (success "s1"));
    reflexivity.
Defined.

(** X3. Between rotations the attendance set only grows, and only by the
    submitter: every earlier member is still a member after any submission,
    and a new member is the identity of a request that carried the stored
    code. *)
Theorem attendance_grows_by_submitter (data : request) (w : world) :
  attendance_log (db w) ⊆ attendance_log (db (snd (verify_attendance data w))) ∧
  ∀ x, x ∈ attendance_log (db (snd (verify_attendance data w))) →
       x ∈ attendance_log (db w) ∨
       (student_id data = Some x ∧ code data = secret_code (db w)).
Proof.
  destruct (verify_outcome data w) as [[-> _]|(id & c & Hi & _ & Hc & _ & Hs & _ & ->)].
  - split; [done|]. by left.
  - cbn. split; [apply union_subseteq_r|].
    intros x [->%elem_of_singleton|Hx]%elem_of_union; [right|by left].
    by rewrite Hi, Hc, Hs.
Qed.

(** X4. Two accepted submissions can come in either order: the store is
    the same. *)
Theorem submissions_commute (w : world) (a b c : string) :
  a ≠ EmptyString → b ≠ EmptyString → c ≠ EmptyString →
  reachable 4 w = true →
  secret_code (db w) = Some c →
  db (snd (verify_attendance (Request (Some b) (Some c))
             (snd (verify_attendance (Request (Some a) (Some c)) w))))
  = db (snd (verify_attendance (Request (Some a) (Some c))
               (snd (verify_attendance (Request (Some b) (Some c)) w)))).
Proof.
  intros Ha Hb Hc Hr Hs.
  destruct (reachable_client _ _ Hr) as (l & Hkv & Hl & Hup).
  cbn [up] in Hup.
  apply andb_true_iff in Hup as [Hl1 Hup].
  apply andb_true_iff in Hup as [Hl2 Hup].
  apply andb_true_iff in Hup as [Hl3 _].
  destruct (valid_utf8 c) eqn:Tc.
  - assert (Hone : ∀ x, x ≠ EmptyString →
              verify_attendance (Request (Some x) (Some c)) w
              = (Val (success x),
                 with_db (sadd x (db w)) (with_kv (Some (advance (advance l))) w))).
    { intros x Hx. rewrite (verify_run x c w l Hx Hc Hkv Hl), Hs, Tc.
      rewrite bool_decide_eq_true_2 by done. by rewrite Hl1. }
    assert (Htwo : ∀ x y, y ≠ EmptyString →
              db (snd (verify_attendance (Request (Some y) (Some c))
                         (with_db (sadd x (db w))
                            (with_kv (Some (advance (advance l))) w))))
              = sadd y (sadd x (db w))).
    { intros x y Hy.
      erewrite (verify_run y c _ (advance (advance l)) Hy Hc);
        [|reflexivity|exact Hl2].
      cbn [db with_db sadd secret_code]. rewrite Hs, Tc.
      rewrite bool_decide_eq_true_2 by done. by rewrite Hl3. }
    rewrite (Hone a Ha), (Hone b Hb). cbn [snd].
    rewrite (Htwo a b Hb), (Htwo b a Ha).
    unfold sadd. cbn. f_equal.
    rewrite !(assoc_L (∪)). f_equal. apply (comm_L (∪)).
  - assert (Hone : ∀ x, x ≠ EmptyString →
              verify_attendance (Request (Some x) (Some c)) w
              = (Raise UnicodeDecodeError, with_kv (Some (advance l)) w)).
    { intros x Hx. by rewrite (verify_run x c w l Hx Hc Hkv Hl), Hs, Tc. }
    assert (Htwo : ∀ y, y ≠ EmptyString →
              db (snd (verify_attendance (Request (Some y) (Some c))
                         (with_kv (Some (advance l)) w))) = db w).
    { intros y Hy.
      erewrite (verify_run y c _ (advance l) Hy Hc); [|reflexivity|exact Hl1].
      cbn [db with_kv]. by rewrite Hs, Tc. }
    rewrite (Hone a Ha), (Hone b Hb). cbn [snd].
    by rewrite (Htwo a Ha), (Htwo b Hb).
Qed.

Lemma submissions_commute_witness :
  db (snd (verify_attendance (Request (Some "zoe") (Some "DKRY5CJQ"))
             (snd (verify_attendance (Request (Some "amy") (Some "DKRY5CJQ")) in_class))))
  = db (snd (verify_attendance (Request (Some "amy") (Some "DKRY5CJQ"))
               (snd (verify_attendance (Request (Some "zoe") (Some "DKRY5CJQ")) in_class)))).
Proof.
  apply (submissions_commute in_class "amy" "zoe" "DKRY5CJQ");
    [done | done | done | reflexivity | reflexivity].
Defined.

(** X5. The code a client is given is a code it can use: when the view
    [get_current_code] answers with a code through a client, that code is
    the stored one afterwards; and if it is not the empty string, a
    submission of it with a non-empty identity that reaches the server is
    welcomed and recorded. *)
Theorem published_code_is_accepted (w : world) (c : string) :
  kv w ≠ None →
  fst (get_current_code w) = Val {| json_secret_code := c |} →
  secret_code (db (snd (get_current_code w))) = Some c ∧
  ∀ id, id ≠ EmptyString → c ≠ EmptyString →
        reachable 2 (snd (get_current_code w)) = true →
        fst (verify_attendance (Request (Some id) (Some c))
               (snd (get_current_code w)))
          = Val (success id) ∧
        id ∈ attendance_log
               (db (snd (verify_attendance (Request (Some id) (Some c))
                           (snd (get_current_code w))))).
Proof.
  intros Hkv Hr. rewrite get_current_code_world.
  destruct (kv w) as [l|] eqn:Hl; [clear Hkv|done].
  unfold get_current_code, bind in Hr.
  destruct (get_or_refresh_secret w) as [[c'|e] w1] eqn:Hg; [|done].
  injection Hr as ->. cbn [snd].
  destruct (refresh_returns w w1 l c Hl Hg) as (_ & _ & _ & Hs & Tc & _).
  split; [done|]. intros id Hid Hc Hr1.
  destruct (reachable_client _ _ Hr1) as (l1 & Hkv1 & Hl1 & Hup).
  cbn [up] in Hup. apply andb_true_iff in Hup as [Hl2 _].
  rewrite (verify_run id c w1 l1 Hid Hc Hkv1 Hl1), Hs, Tc.
  rewrite bool_decide_eq_true_2 by done. rewrite Hl2.
  split; [done|]. cbn. by apply elem_of_union_l, elem_of_singleton.
Qed.

Lemma published_code_is_accepted_witness :
  secret_code (db (snd (get_current_code after_class))) = Some "DKRY5CJQ" ∧
  ∀ id, id ≠ EmptyString → "DKRY5CJQ" ≠ EmptyString →
        reachable 2 (snd (get_current_code after_class)) = true →
        fst (verify_attendance (Request (Some id) (Some "DKRY5CJQ"))
               (snd (get_current_code after_class)))
          = Val (success id) ∧
        id ∈ attendance_log
               (db (snd (verify_attendance (Request (Some id) (Some "DKRY5CJQ"))
                           (snd (get_current_code after_class))))).
Proof.
  apply (published_code_is_accepted after_class "DKRY5CJQ");
    [done | by vm_compute].
Defined.

(** ** What a call for the code can and cannot do *)

(** X6. Inside the window the call is read-only, whatever else happens: if
    the timestamp is not stale the store is unchanged, with or without a
    stored code and whether or not the server is reached. *)
Theorem fresh_call_is_read_only (w : world) :
  fresh w → db (snd (get_or_refresh_secret w)) = db w.
Proof.
  intros Hf. destruct (refresh_outcome w) as [H|(Hs & _)]; [done|].
  unfold stale in Hs. unfold fresh in Hf. by apply Qlt_not_le in Hs.
Qed.

Lemma fresh_call_is_read_only_witness :
  db (snd (get_or_refresh_secret in_class)) = db in_class.
Proof. apply (fresh_call_is_read_only in_class). by vm_compute. Defined.

(** X7. The timestamp never goes back and rotations are spaced: if the
    clock does not run backwards between the two readings of a call, the
    timestamp after the call (an absent one counting as 0) is at least the
    one before, and whenever the call changed the store it exceeds the one
    before by more than the refresh interval. *)
Theorem timestamp_advances (w : world) :
  (peek (clock w) <= peek (advance (clock w)))%Q →
  (default 0 (secret_timestamp (db w))
     <= default 0 (secret_timestamp (db (snd (get_or_refresh_secret w)))))%Q ∧
  (db (snd (get_or_refresh_secret w)) ≠ db w →
   (default 0 (secret_timestamp (db w)) + SECRET_REFRESH_INTERVAL_SECONDS
      < default 0 (secret_timestamp (db (snd (get_or_refresh_secret w)))))%Q).
Proof.
  intros Hmono.
  destruct (refresh_outcome w) as [->|(Hs & _ & _ & _ & ->)].
  - split; [apply Qle_refl|done].
  - cbn [rotated secret_timestamp default].
    unfold stale, elapsed, SECRET_REFRESH_INTERVAL_SECONDS in *.
    revert Hs Hmono.
    generalize (default 0%Q (secret_timestamp (db w))) as old.
    generalize (peek (clock w)) as t1.
    generalize (peek (advance (clock w))) as t2.
    intros t2 t1 old Hs Hmono. unfold id. split; [|intros _]; lra.
Qed.

Lemma timestamp_advances_witness :
  (default 0 (secret_timestamp (db after_class))
     <= default 0 (secret_timestamp (db (snd (get_or_refresh_secret after_class)))))%Q ∧
  (db (snd (get_or_refresh_secret after_class)) ≠ db after_class →
   (default 0 (secret_timestamp (db after_class)) + SECRET_REFRESH_INTERVAL_SECONDS
      < default 0 (secret_timestamp (db (snd (get_or_refresh_secret after_class)))))%Q).
Proof. apply (timestamp_advances after_class). by vm_compute. Defined.

(** X8. The timestamp can look fresh while there is no code (an absent
    timestamp counts as 0, so this is a clock within the interval of the
    epoch): the call then raises [AttributeError] on [.decode] of the
    missing reply and the store is as it was. *)
Theorem refresh_without_code (w : world) :
  reachable 2 w = true → fresh w → secret_code (db w) = None →
  fst (get_or_refresh_secret w) = Raise AttributeError ∧
  db (snd (get_or_refresh_secret w)) = db w.
Proof.
  intros Hr Hf Hc.
  destruct (reachable_client _ _ Hr) as (l & Hkv & Hl & Hup).
  cbn [up] in Hup. apply andb_true_iff in Hup as [Hl1 _].
  rewrite (refresh_fresh_run w l Hkv Hl (fresh_not_stale w Hf)).
  cbn zeta. by rewrite Hl1, Hc.
Qed.

Lemma refresh_without_code_witness :
  fst (get_or_refresh_secret epoch_boot) = Raise AttributeError ∧
  db (snd (get_or_refresh_secret epoch_boot)) = db epoch_boot.
Proof.
  apply (refresh_without_code epoch_boot);
    [reflexivity | by vm_compute | reflexivity].
Defined.

(** X9. The view answers whenever it can: if both round trips reach the
    server, and the program finds the timestamp stale or a code is stored
    that [.decode] accepts, [get_current_code] returns a code, and that
    code is the one stored afterwards. *)
Theorem get_current_code_answers (w : world) :
  reachable 2 w = true →
  is_stale w = true ∨ (∃ stored, secret_code (db w) = Some stored ∧ text stored) →
  ∃ c, fst (get_current_code w) = Val {| json_secret_code := c |} ∧
       secret_code (db (snd (get_current_code w))) = Some c.
Proof.
  intros Hr Hcan.
  destruct (reachable_client _ _ Hr) as (l & Hkv & Hl & Hup).
  cbn [up] in Hup. apply andb_true_iff in Hup as [Hl1 _].
  unfold get_current_code, bind.
  destruct (is_stale w) eqn:Hs.
  - rewrite (refresh_stale_run w l Hkv Hl Hs). cbn zeta. rewrite Hl1.
    by eexists.
  - destruct Hcan as [?|(stored & Hc & Tc)]; [done|].
    rewrite (refresh_fresh_run w l Hkv Hl Hs). cbn zeta.
    rewrite Hl1, Hc, Tc. by exists stored.
Qed.

Lemma get_current_code_answers_witness :
  ∃ c, fst (get_current_code first_boot) = Val {| json_secret_code := c |} ∧
       secret_code (db (snd (get_current_code first_boot))) = Some c.
Proof.
  apply (get_current_code_answers first_boot); [reflexivity|].
  left. by vm_compute.
Defined.

(** X10. A real code is never the placeholder: through a client, and with
    a stored code of the shape rotations give, a call does not return
    KV_NOT_AVAILABLE. *)
Theorem no_placeholder_through_client (w : world) :
  kv w ≠ None → code_shape (db w) →
  fst (get_or_refresh_secret w) ≠ Val KV_NOT_AVAILABLE.
Proof.
  intros Hkv Hshape Hr.
  destruct (kv w) as [l|] eqn:Hl; [clear Hkv|done].
  destruct (get_or_refresh_secret w) as [r w1] eqn:Hg. cbn in Hr. subst r.
  destruct (refresh_returns w w1 l _ Hl Hg) as (_ & _ & _ & Hs & _ & [[_ Hd]|[_ Hd]]).
  - apply (f_equal String.length) in Hd. rewrite drawn_length in Hd.
    discriminate Hd.
  - rewrite Hd in Hs. by destruct (Hshape _ Hs) as [? _].
Qed.

Lemma no_placeholder_through_client_witness :
  fst (get_or_refresh_secret in_class) ≠ Val KV_NOT_AVAILABLE.
Proof.
  apply (no_placeholder_through_client in_class); [done|].
  intros c [= <-]. split; [reflexivity|].
  intros ch Hch. vm_compute in Hch. unfold alphabet. cbn [list_ascii_of_string In].
  intuition.
Defined.

(** ** The listing and the welcome page *)

(** X11. [get_attendance_log] never writes, and says so when it cannot
    read: in every world the store, clock and random source are untouched;
    with no client the call raises [AttributeError] and with a lost round
    trip [ConnectionError], never an empty listing. *)
Theorem get_attendance_log_failures (w : world) :
  db (snd (get_attendance_log w)) = db w ∧
  clock (snd (get_attendance_log w)) = clock w ∧
  dice (snd (get_attendance_log w)) = dice w ∧
  (kv w = None → get_attendance_log w = (Raise AttributeError, w)) ∧
  (∀ l, kv w = Some l → peek l = false →
        fst (get_attendance_log w) = Raise ConnectionError).
Proof.
  destruct (log_frame w) as (H1 & H2 & H3). do 3 (split; [done|]).
  split; [apply log_no_client|].
  intros l Hkv Hl. by rewrite (log_lost w l Hkv Hl).
Qed.

(** X12. The listing of a set of text does not depend on the order in
    which the server enumerates the set: whatever duplicate-free
    enumeration of the members is sorted, the result is the list the view
    returns. *)
Theorem listing_independent_of_enumeration (w : world) (members : list string) :
  reachable 1 w = true →
  all_text (attendance_log (db w)) →
  NoDup members →
  (∀ x, x ∈ members ↔ x ∈ attendance_log (db w)) →
  fst (get_attendance_log w) = Val (sorted members).
Proof.
  intros Hr Ht Hnd Hin.
  destruct (reachable_client _ _ Hr) as (l & Hkv & Hl & _).
  rewrite (log_run_text w l Hkv Hl Ht). cbn [fst]. f_equal.
  symmetry. apply sorted_unique; [apply sorted_StronglySorted|].
  rewrite sorted_Permutation. apply NoDup_Permutation; [done|apply NoDup_elements|].
  intros x. by rewrite Hin, elem_of_elements.
Qed.

Lemma listing_independent_of_enumeration_witness :
  fst (get_attendance_log in_class) = Val (sorted ["c0"; "b1"; "a2"]).
Proof.
  apply (listing_independent_of_enumeration in_class ["c0"; "b1"; "a2"]).
  - reflexivity.
  - members_text.
  - refine (bool_decide_unpack _ _). by vm_compute.
  - intros x. unfold in_class, class_store. cbn [db attendance_log].
    rewrite !elem_of_cons, !elem_of_union, !elem_of_singleton, elem_of_nil.
    tauto.
Defined.

(** X13. The welcome page reports the client, not the server: [index]
    reads nothing and changes nothing, and says connected as soon as a
    client exists; with a client whose server does not answer it still says
    connected while the other two GET views raise [ConnectionError]. *)
Theorem connected_is_not_reachable (w : world) (l : tape bool) :
  kv w = Some l → peek l = false →
  (∃ page, index w = (Val page, w) ∧ kv_status page = "connected") ∧
  fst (get_current_code w) = Raise ConnectionError ∧
  fst (get_attendance_log w) = Raise ConnectionError.
Proof.
  intros Hkv Hl. split; [|split].
  - rewrite index_run, Hkv. by eexists.
  - unfold get_current_code.
    by rewrite (bind_raise _ _ _ _ _ (refresh_first_trip_lost w l Hkv Hl)).
  - by rewrite (log_lost w l Hkv Hl).
Qed.

Lemma connected_is_not_reachable_witness :
  (∃ page, index server_down = (Val page, server_down) ∧
           kv_status page = "connected") ∧
  fst (get_current_code server_down) = Raise ConnectionError ∧
  fst (get_attendance_log server_down) = Raise ConnectionError.
Proof.
  apply (connected_is_not_reachable server_down (always false)); reflexivity.
Defined.

(** X14. With no client the placeholder is published but opens nothing:
    [index] says disconnected, [get_current_code] answers the placeholder
    KV_NOT_AVAILABLE without touching anything, and a submission of that
    very string raises instead of being welcomed, as does the listing. *)
Theorem placeholder_opens_nothing (w : world) (id : string) :
  kv w = None → id ≠ EmptyString →
  (∃ page, index w = (Val page, w) ∧ kv_status page = "disconnected") ∧
  get_current_code w = (Val {| json_secret_code := KV_NOT_AVAILABLE |}, w) ∧
  verify_attendance (Request (Some id) (Some KV_NOT_AVAILABLE)) w
    = (Raise AttributeError, w) ∧
  get_attendance_log w = (Raise AttributeError, w).
Proof.
  intros Hkv Hid. split; [|split; [|split]].
  - rewrite index_run, Hkv. by eexists.
  - unfold get_current_code.
    by rewrite (bind_val _ _ _ _ _ (refresh_no_client w Hkv)).
  - by apply verify_no_client.
  - by apply log_no_client.
Qed.

Lemma placeholder_opens_nothing_witness :
  (∃ page, index no_client = (Val page, no_client) ∧
           kv_status page = "disconnected") ∧
  get_current_code no_client
    = (Val {| json_secret_code := KV_NOT_AVAILABLE |}, no_client) ∧
  verify_attendance (Request (Some "s1") (Some KV_NOT_AVAILABLE)) no_client
    = (Raise AttributeError, no_client) ∧
  get_attendance_log no_client = (Raise AttributeError, no_client).
Proof. apply (placeholder_opens_nothing no_client "s1"); done. Defined.

(** ** What the application keeps true *)

Lemma served_outcome (c : call) (w : world) :
  db (served c w) = db w ∨
  (db (served c w)
     = rotated (drawn alphabet 8 (dice w)) (peek (advance (clock w)))) ∨
  (∃ data id, c = VerifyAttendance data ∧ student_id data = Some id ∧
              id ≠ EmptyString ∧ is_Some (secret_code (db w)) ∧
              db (served c w) = sadd id (db w)).
Proof.
  destruct c as [|data| |]; cbn [served].
  - rewrite get_current_code_world.
    destruct (refresh_outcome w) as [H|(_ & _ & _ & _ & H)]; by auto.
  - destruct (verify_outcome data w)
      as [[H _]|(id & c & Hi & Hid & _ & _ & Hs & _ & H)]; [by auto|].
    right. right. exists data, id. by rewrite Hs.
  - left. apply log_frame.
  - left. by rewrite index_run.
Qed.

(** X15. Whatever requests are served, in whatever order and whatever the
    clock, the dice and the network do, a stored code keeps the shape
    rotations give it: eight characters, each from the alphabet. *)
Theorem run_keeps_code_shape (cs : list call) (w : world) :
  code_shape (db w) → code_shape (db (run cs w)).
Proof.
  revert w. induction cs as [|c cs IH]; intros w Hw; [done|].
  cbn [run fold_left]. apply IH.
  destruct (served_outcome c w) as [->|[->|(_ & id & _ & _ & _ & _ & ->)]];
    [done| |done].
  unfold code_shape, rotated. cbn [secret_code].
  intros code Hc. assert (code = drawn alphabet 8 (dice w)) as -> by congruence.
  split; [apply drawn_length|].
  intros ch. by apply drawn_alphabet.
Qed.

Lemma run_keeps_code_shape_witness :
  code_shape
    (db (run [VerifyAttendance (Request (Some "s1") (Some "DKRY5CJQ")); GetCurrentCode]
           after_class)).
Proof.
  apply (run_keeps_code_shape
           [VerifyAttendance (Request (Some "s1") (Some "DKRY5CJQ")); GetCurrentCode]
           after_class).
  intros c [= <-]. split; [reflexivity|].
  intros ch Hch. vm_compute in Hch. unfold alphabet. cbn [list_ascii_of_string In].
  intuition.
Defined.

(** X16. Code and timestamp live together: whatever requests are served,
    the code is absent exactly when the timestamp is, and as long as there
    is no code the attendance set is empty. *)
Theorem run_keeps_initialised_together (cs : list call) (w : world) :
  initialised_together (db w) → initialised_together (db (run cs w)).
Proof.
  revert w. induction cs as [|c cs IH]; intros w Hw; [done|].
  cbn [run fold_left]. apply IH.
  destruct (served_outcome c w) as [->|[->|(_ & id & _ & _ & _ & [code Hc] & ->)]];
    [done| |].
  - by split.
  - destruct Hw as [Hw _]. split; cbn; [|by rewrite Hc].
    rewrite Hc. rewrite Hc in Hw. done.
Qed.

Lemma run_keeps_initialised_together_witness :
  initialised_together
    (db (run [VerifyAttendance (Request (Some "s1") (Some "DKRY5CJQ")); GetCurrentCode]
           first_boot)).
Proof.
  apply (run_keeps_initialised_together
           [VerifyAttendance (Request (Some "s1") (Some "DKRY5CJQ")); GetCurrentCode]
           first_boot).
  by split.
Defined.

(** X17. The empty identity is never marked present: whatever requests are
    served, if it was not in the attendance set it is not afterwards. *)
Theorem run_never_records_empty_identity (cs : list call) (w : world) :
  EmptyString ∉ attendance_log (db w) →
  EmptyString ∉ attendance_log (db (run cs w)).
Proof.
  revert w. induction cs as [|c cs IH]; intros w Hw; [done|].
  cbn [run fold_left]. apply IH.
  destruct (served_outcome c w) as [->|[->|(_ & id & _ & _ & Hid & _ & ->)]];
    [done| |].
  - cbn. apply not_elem_of_empty.
  - cbn. rewrite elem_of_union, elem_of_singleton. intros [?|?]; by auto.
Qed.

Lemma run_never_records_empty_identity_witness :
  EmptyString ∉
    attendance_log
      (db (run [VerifyAttendance (Request (Some EmptyString) (Some "DKRY5CJQ"));
                GetAttendanceLog]
             in_class)).
Proof.
  apply (run_never_records_empty_identity
           [VerifyAttendance (Request (Some EmptyString) (Some "DKRY5CJQ"));
            GetAttendanceLog]
           in_class).
  unfold in_class, class_store. cbn [db attendance_log].
  rewrite !elem_of_union, !elem_of_singleton. intros [[?|?]|?]; discriminate.
Defined.

(** X18. A rotation retires the old code: once [get_current_code] has
    found the timestamp stale and rotated, a submission of the code stored
    before is answered 403 and recorded nowhere, unless the dice happened
    to draw the same code again. *)
Theorem expired_code_is_rejected (w : world) (id old : string) :
  id ≠ EmptyString → old ≠ EmptyString →
  reachable 3 w = true → is_stale w = true →
  secret_code (db w) = Some old →
  old ≠ drawn alphabet 8 (dice w) →
  fst (verify_attendance (Request (Some id) (Some old)) (snd (get_current_code w)))
    = Val mismatch ∧
  attendance_log
    (db (snd (verify_attendance (Request (Some id) (Some old))
                (snd (get_current_code w))))) = ∅.
Proof.
  intros Hid Hold Hr Hs _ Hne. rewrite get_current_code_world.
  destruct (reachable_client _ _ Hr) as (l & Hkv & Hl & Hup).
  cbn [up] in Hup.
  apply andb_true_iff in Hup as [Hl1 Hup].
  apply andb_true_iff in Hup as [Hl2 _].
  rewrite (refresh_stale_run w l Hkv Hl Hs). cbn zeta. rewrite Hl1. cbn [snd].
  erewrite (verify_run id old _ (advance (advance l)) Hid Hold);
    [|reflexivity|exact Hl2].
  cbn [db rotated secret_code]. rewrite (drawn_text 8 (dice w)).
  by rewrite bool_decide_eq_false_2.
Qed.

Lemma expired_code_is_rejected_witness :
  fst (verify_attendance (Request (Some "s1") (Some "OLDCODE1"))
         (snd (get_current_code
                 (with_db (apply_queued class_store (SetSecretCode "OLDCODE1"))
                    after_class))))
    = Val mismatch ∧
  attendance_log
    (db (snd (verify_attendance (Request (Some "s1") (Some "OLDCODE1"))
                (snd (get_current_code
                        (with_db (apply_queued class_store (SetSecretCode "OLDCODE1"))
                           after_class)))))) = ∅.
Proof.
  apply (expired_code_is_rejected
           (with_db (apply_queued class_store (SetSecretCode "OLDCODE1")) after_class)
           "s1" "OLDCODE1");
    [done | done | reflexivity | by vm_compute | reflexivity | by vm_compute].
Defined.

(** ** Bytes that are not text *)

(** X19. The application keeps the store text: whatever requests are
    served, if the identities submitted are strings and the stored code and
    members decode before, they do afterwards. *)
Theorem run_keeps_text (cs : list call) (w : world) :
  text_requests cs → text_store (db w) → text_store (db (run cs w)).
Proof.
  revert w. induction cs as [|c cs IH]; intros w Hcs Hw; [done|].
  cbn [run fold_left]. apply IH.
  { intros data id Hin. apply Hcs. by right. }
  destruct (served_outcome c w)
    as [->|[->|(data & id & -> & Hid & _ & _ & ->)]]; [done| |].
  - split; [|by intros x Hx%elem_of_empty].
    cbn [rotated secret_code]. intros code Hc.
    assert (code = drawn alphabet 8 (dice w)) as -> by congruence.
    apply drawn_text.
  - destruct Hw as [Hcode Hlog]. split; [done|].
    cbn [sadd attendance_log]. apply all_text_add; [|done].
    apply (Hcs data id); [by left|done].
Qed.

Lemma run_keeps_text_witness :
  text_store
    (db (run [GetCurrentCode; VerifyAttendance (Request (Some "s1") (Some "DKRY5CJQ"))]
           first_boot)).
Proof.
  apply (run_keeps_text
           [GetCurrentCode; VerifyAttendance (Request (Some "s1") (Some "DKRY5CJQ"))]
           first_boot).
  - intros data id [[=]|[[= <-]|[]]] [= <-]. reflexivity.
  - split; [intros c [=]|]. by intros x Hx%elem_of_empty.
Defined.

(** X20. Bytes that are not UTF-8 stop the views that decode them, and
    nothing is written: with the server reached, a stored code that does
    not decode makes [verify_attendance] raise [UnicodeDecodeError] for
    every well-formed submission and makes [get_or_refresh_secret] raise it
    when the timestamp is not found stale; a member that does not decode
    makes [get_attendance_log] raise it. *)
Theorem undecodable_bytes_raise (w : world) :
  reachable 2 w = true →
  (∀ stored, secret_code (db w) = Some stored → valid_utf8 stored = false →
     (∀ id c, id ≠ EmptyString → c ≠ EmptyString →
        fst (verify_attendance (Request (Some id) (Some c)) w)
          = Raise UnicodeDecodeError ∧
        db (snd (verify_attendance (Request (Some id) (Some c)) w)) = db w) ∧
     (is_stale w = false →
        fst (get_or_refresh_secret w) = Raise UnicodeDecodeError ∧
        db (snd (get_or_refresh_secret w)) = db w)) ∧
  (∀ x, x ∈ attendance_log (db w) → valid_utf8 x = false →
     fst (get_attendance_log w) = Raise UnicodeDecodeError ∧
     db (snd (get_attendance_log w)) = db w).
Proof.
  intros Hr.
  destruct (reachable_client _ _ Hr) as (l & Hkv & Hl & Hup).
  cbn [up] in Hup. apply andb_true_iff in Hup as [Hl1 _].
  split.
  - intros stored Hs Tst. split.
    + intros id c Hid Hc.
      by rewrite (verify_run id c w l Hid Hc Hkv Hl), Hs, Tst.
    + intros Hf. rewrite (refresh_fresh_run w l Hkv Hl Hf). cbn zeta.
      by rewrite Hl1, Hs, Tst.
  - intros x Hx Tx. rewrite (log_run w l Hkv Hl).
    assert (Hall : forallb valid_utf8 (elements (attendance_log (db w))) = false).
    { apply not_true_is_false. intros Hall.
      apply elem_of_elements, list_elem_of_In in Hx.
      pose proof (proj1 (forallb_forall _ _) Hall x Hx). congruence. }
    by rewrite Hall.
Qed.

Lemma undecodable_bytes_raise_witness :
  (∀ stored, secret_code (db foreign_bytes) = Some stored →
     valid_utf8 stored = false →
     (∀ id c, id ≠ EmptyString → c ≠ EmptyString →
        fst (verify_attendance (Request (Some id) (Some c)) foreign_bytes)
          = Raise UnicodeDecodeError ∧
        db (snd (verify_attendance (Request (Some id) (Some c)) foreign_bytes))
          = db foreign_bytes) ∧
     (is_stale foreign_bytes = false →
        fst (get_or_refresh_secret foreign_bytes) = Raise UnicodeDecodeError ∧
        db (snd (get_or_refresh_secret foreign_bytes)) = db foreign_bytes)) ∧
  (∀ x, x ∈ attendance_log (db foreign_bytes) → valid_utf8 x = false →
     fst (get_attendance_log foreign_bytes) = Raise UnicodeDecodeError ∧
     db (snd (get_attendance_log foreign_bytes)) = db foreign_bytes).
Proof. apply (undecodable_bytes_raise foreign_bytes). reflexivity. Defined.

(** On that server the three views raise. *)
Example foreign_bytes_example :
  fst (get_or_refresh_secret foreign_bytes) = Raise UnicodeDecodeError ∧
  fst (verify_attendance (Request (Some "s1") (Some "DKRY5CJQ")) foreign_bytes)
    = Raise UnicodeDecodeError ∧
  fst (get_attendance_log foreign_bytes) = Raise UnicodeDecodeError.
Proof. repeat split; vm_compute; reflexivity. Qed.
